(** * Clock Signal: instruction fields, the WD1770 controller and the Amiga bus

    A shallow embedding of three pieces of the emulator:
    - [PowerPC]: [InstructionSet::PowerPC::Instruction] and its on-demand
      field accessors (InstructionSets/PowerPC/Instruction.hpp);
    - [WD]: the [WD::WD1770] floppy-controller state machine (1770.cpp);
    - [Amiga]: [Amiga::ConcreteMachine], its constructor and its
      [perform_bus_operation] (Machines/Amiga/Amiga.cpp).

    Fixed-width C++ integers are integers in [Z] with the wrap-around
    written out by the conversions of [Fixed]. *)

From Stdlib Require Import ZArith List Bool Lia.
From coqutil Require Import Z.bitblast.
Import ListNotations.
Local Open Scope Z_scope.

(** ** Fixed-width integer conversions *)

Module Fixed.

(** [uintN_t(x)]: reduction modulo [2^N]. *)
Definition uint (w : Z) (x : Z) : Z := x mod 2 ^ w.

(** [intN_t(x)]: the two's-complement reading of the low [w] bits. *)
Definition sint (w : Z) (x : Z) : Z :=
  let u := uint w x in
  if u <? 2 ^ (w - 1) then u else u - 2 ^ w.

Definition uint8_t := uint 8.
Definition uint16_t := uint 16.
Definition uint32_t := uint 32.
Definition int16_t := sint 16.
Definition int32_t := sint 32.

(** [x & m] read as a C++ condition. *)
Definition test (x m : Z) : bool := negb (Z.land x m =? 0).

Lemma uint_range w x : 0 <= w -> 0 <= uint w x < 2 ^ w.
Proof.
  intros Hw. unfold uint. apply Z.mod_pos_bound. apply Z.pow_pos_nonneg; lia.
Qed.

Lemma uint_small w x : 0 <= x < 2 ^ w -> uint w x = x.
Proof. intros H. unfold uint. apply Z.mod_small; exact H. Qed.

Lemma sint_range w x : 0 < w -> - 2 ^ (w - 1) <= sint w x < 2 ^ (w - 1).
Proof.
  intros Hw. unfold sint.
  pose proof (uint_range w x ltac:(lia)) as Hu.
  assert (Hp : 2 ^ w = 2 * 2 ^ (w - 1)).
  { replace w with (Z.succ (w - 1)) at 1 by lia. apply Z.pow_succ_r; lia. }
  destruct (Z.ltb_spec (uint w x) (2 ^ (w - 1))); lia.
Qed.

End Fixed.

(** ** PowerPC instructions *)

Module PowerPC.
Import Fixed.

(** [enum class BranchOption: uint32_t]; [Set] is spelt [Set_]. *)
Inductive BranchOption : Type :=
  | Dec_NotZeroAndClear | Dec_ZeroAndClear | Clear
  | Dec_NotZeroAndSet | Dec_ZeroAndSet | Set_
  | Dec_NotZero | Dec_Zero | Always.

Definition BranchOption_value (b : BranchOption) : Z :=
  match b with
  | Dec_NotZeroAndClear => 0 | Dec_ZeroAndClear => 1 | Clear => 2
  | Dec_NotZeroAndSet => 4 | Dec_ZeroAndSet => 5 | Set_ => 6
  | Dec_NotZero => 8 | Dec_Zero => 9 | Always => 10
  end.

(** [enum class Operation: uint8_t], in declaration order. *)
Inductive Operation : Type :=
  | Undefined | absx | clcs | divx | divsx | dozx | dozi | lscbxx | maskgx
  | maskirx | mulx | nabsx | rlmix | rribx | slex | sleqx | sliqx | slliqx
  | sllqx | slqx | sraiqx | sraqx | srex | sreax | sreqx | sriqx | srliqx
  | srlqx | srqx | addx | addcx | addex | addi | addic | addic_ | addis
  | addmex | addzex | andx | andcx | andi_ | andis_ | bx | bcx | bcctrx
  | bclrx | cmp | cmpi | cmpl | cmpli | cntlzwx | crand | crandc | creqv
  | crnand | crnor | cror | crorc | crxor | dcbf | dcbst | dcbt | dcbtst
  | dcbz | divwx | divwux | eciwx | ecowx | eieio | eqvx | extsbx | extshx
  | fabsx | faddx | faddsx | fcmpo | fcmpu | fctiwx | fctiwzx | fdivx
  | fdivsx | fmaddx | fmaddsx | fmrx | fmsubx | fmsubsx | fmulx | fmulsx
  | fnabsx | fnegx | fnmaddx | fnmaddsx | fnmsubx | fnmsubsx | frspx | fsubx
  | fsubsx | icbi | isync | lbz | lbzu | lbzux | lbzx | lfd | lfdu | lfdux
  | lfdx | lfs | lfsu | lfsux | lfsx | lha | lhau | lhaux | lhax | lhbrx
  | lhz | lhzu | lhzux | lhzx | lmw | lswi | lswx | lwarx | lwbrx | lwz
  | lwzu | lwzux | lwzx | mcrf | mcrfs | mcrxr | mfcr | mffsx | mfmsr | mfspr
  | mfsr | mfsrin | mtcrf | mtfsb0x | mtfsb1x | mtfsfx | mtfsfix | mtmsr
  | mtspr | mtsr | mtsrin | mulhwx | mulhwux | mulli | mullwx | nandx | negx
  | norx | orx | orcx | ori | oris | rfi | rlwimix | rlwinmx | rlwnmx | sc
  | slwx | srawx | srawix | srwx | stb | stbu | stbux | stbx | stfd | stfdu
  | stfdux | stfdx | stfs | stfsu | stfsux | stfsx | sth | sthbrx | sthu
  | sthux | sthx | stmw | stswi | stswx | stw | stwbrx | stwcx_ | stwu
  | stwux | stwx | subfx | subfcx | subfex | subfic | subfmex | subfzex
  | sync | tw | twi | xorx | xori | xoris | mftb | dcbi | tlbia | tlbie
  | tlbsync | fresx | frsqrtex | fselx | fsqrtx | slbia | slbie | stfiwx
  | cntlzdx | divdx | divdux | extswx | fcfidx | fctidx | fctidzx | tdi
  | mulhdux | ldx | sldx | ldux | td | mulhdx | ldarx | stdx | stdux | mulld
  | lwax | lwaux | sradix | srdx | sradx | extsw | fsqrtsx | std | stdu
  | stdcx_.

(** [struct Instruction]: only the operation is decoded ahead of time. *)
Record Instruction : Type := mkInstruction {
  operation : Operation;
  is_supervisor : bool;
  opcode : Z
}.

(** [Instruction() noexcept {}] *)
Definition Instruction_default : Instruction :=
  mkInstruction Undefined false 0.

(** [Instruction(uint32_t opcode)]: the member initialisers leave
    [operation = Operation::Undefined] and [is_supervisor = false]. *)
Definition Instruction_of_opcode (w : Z) : Instruction :=
  mkInstruction Undefined false (uint32_t w).

(** [Instruction(Operation, uint32_t, bool is_supervisor = false)] *)
Definition Instruction_of (op : Operation) (w : Z) (sup : bool) : Instruction :=
  mkInstruction op sup (uint32_t w).

(** [(opcode >> s) & m], the shape of most accessors. *)
Definition field (s m : Z) (i : Instruction) : Z :=
  Z.land (Z.shiftr (opcode i) s) m.

Definition uimm (i : Instruction) : Z := uint16_t (Z.land (opcode i) 0xffff).
Definition simm (i : Instruction) : Z := int16_t (Z.land (opcode i) 0xffff).
Definition d (i : Instruction) : Z := int16_t (Z.land (opcode i) 0xffff).
Definition ds (i : Instruction) : Z := int16_t (Z.land (opcode i) 0xfffc).
Definition imm (i : Instruction) : Z := int32_t (field 12 0xf i).
Definition to (i : Instruction) : Z := int32_t (field 21 0x1f i).

Definition rA := field 16 0x1f.
Definition rB := field 11 0x1f.
Definition rD := field 21 0x1f.
Definition rS := field 21 0x1f.

Definition frA := field 16 0x1f.
Definition frB := field 11 0x1f.
Definition frC := field 6 0x1f.
Definition frS := field 21 0x1f.
Definition frD := field 21 0x1f.

Definition bo := field 21 0x1f.
(** [BranchOption((opcode >> 22) & 0xf)]: the enum's underlying value. *)
Definition branch_options := field 22 0xf.
Definition branch_prediction_hint (i : Instruction) : Z :=
  Z.land (opcode i) 0x200000.
Definition bi := field 16 0x1f.
Definition bd (i : Instruction) : Z := int16_t (Z.land (opcode i) 0xfffc).

Definition mb := field 6 0x1f.
Definition me := field 1 0x1f.

Definition crbA := field 16 0x1f.
Definition crbB := field 11 0x1f.
Definition crbD := field 21 0x1f.
Definition crfD := field 23 0x07.
Definition crfS := field 18 0x07.
Definition crm := field 12 0xff.
Definition fm := field 17 0xff.
Definition nb := field 11 0x1f.
Definition sh := field 11 0x1f.
Definition sr := field 16 0xf.

(** [li()]: [extensions[(opcode >> 25) & 1]] picks the sign extension. *)
Definition extensions (k : Z) : Z :=
  if k =? 0 then 0x00000000 else 0xfc000000.

Definition li (i : Instruction) : Z :=
  let value :=
    Z.lor (Z.land (opcode i) 0x03fffffc)
          (extensions (Z.land (Z.shiftr (opcode i) 25) 1)) in
  int32_t value.

Definition aa (i : Instruction) : Z := Z.land (opcode i) 0x02.
Definition lk (i : Instruction) : Z := Z.land (opcode i) 0x01.
Definition rc (i : Instruction) : Z := Z.land (opcode i) 0x01.
Definition l (i : Instruction) : Z := Z.land (opcode i) 0x200000.
Definition oe (i : Instruction) : Z := Z.land (opcode i) 0x400.

(** Every field accessor of the struct, in declaration order. *)
Definition accessors : list (Instruction -> Z) :=
  [ uimm; simm; d; ds; imm; to; rA; rB; rD; rS; frA; frB; frC; frS; frD;
    bo; branch_options; branch_prediction_hint; bi; bd; mb; me;
    crbA; crbB; crbD; crfD; crfS; crm; fm; nb; sh; sr; li; aa; lk; rc; l; oe ].

(** The values a caller observes when it invokes every accessor once. *)
Definition read_fields (i : Instruction) : list Z :=
  map (fun f => f i) accessors.

(** A caller invoking accessor number [k] of [accessors] at each step of
    [calls], on one and the same object: the values it reads. *)
Definition read_sequence (i : Instruction) (calls : list nat) : list Z :=
  map (fun k => nth k (read_fields i) 0) calls.

(** The cast [BranchOption(v)], read back: the enumerator whose value [v]
    is, if there is one. *)
Definition BranchOption_of_value (v : Z) : option BranchOption :=
  match v with
  | 0 => Some Dec_NotZeroAndClear | 1 => Some Dec_ZeroAndClear
  | 2 => Some Clear | 4 => Some Dec_NotZeroAndSet
  | 5 => Some Dec_ZeroAndSet | 6 => Some Set_
  | 8 => Some Dec_NotZero | 9 => Some Dec_Zero | 10 => Some Always
  | _ => None
  end.

(** The primary opcode, bits 26 to 31, which the struct has no accessor
    for. *)
Definition primary_opcode (i : Instruction) : Z := Z.shiftr (opcode i) 26.

(** The accessors that read a five-bit field. *)
Definition five_bit_fields : list (Instruction -> Z) :=
  [ to; rA; rB; rD; rS; frA; frB; frC; frS; frD; bo; bi; mb; me;
    crbA; crbB; crbD; nb; sh ].

(** The 24 bits of the [LI] field (opcode bits 2 to 25), read unsigned. *)
Definition li_bits (w : Z) : Z := Z.land (Z.shiftr w 2) (Z.ones 24).

(** The 14 bits of the [BD] field (opcode bits 2 to 15), read unsigned. *)
Definition bd_bits (w : Z) : Z := Z.land (Z.shiftr w 2) (Z.ones 14).

End PowerPC.

(** ** The WD1770 floppy-disk controller *)

Module WD.
Import Fixed.

(** [enum class State]. The enumeration is declared in 1770.hpp, which is
    not among the sources; these are the states 1770.cpp names. *)
Inductive State : Type :=
  | Waiting | BeginType1 | BeginType2 | BeginType3 | BeginType1PostSpin
  | WaitForSixIndexPulses | TestTrack | TestDirection | TestHead | StepDelay
  | TestVerify | VerifyTrack | TestPause | TestWrite.

Scheme Equality for State.

(** [enum Flag]: the status-register masks. Their values are declared in
    1770.hpp, so they are a parameter of the controller. *)
Record Flags : Type := mkFlags {
  MotorOn : Z;
  RecordNotFound : Z;
  CRCError : Z;
  LostData : Z;
  DataRequest : Z;
  Busy : Z
}.

(** What [Storage::Disk::Drive::run_for_cycles] reports back through the
    two virtual callbacks the controller implements. *)
Inductive DriveEvent : Type :=
  | InputBit (value cycles_since_index_hole : Z)
  | IndexHole.

(** The [Storage::Disk::Drive] base class, as the controller uses it:
    [step], [get_is_track_zero] and the timed advance, which returns the
    callbacks it made, in order. *)
Class Drive (D : Type) : Type := {
  step : Z -> D -> D;
  get_is_track_zero : D -> bool;
  drive_run_for_cycles : Z -> D -> D * list DriveEvent
}.

(** The function-local [static bool has_hit_error] of [run_for_cycles],
    shared by every controller of the process, and what [printf] wrote. *)
Record Statics : Type := mkStatics {
  has_hit_error : bool;
  printed : list State
}.

(** How one pass of the [switch] leaves the [while] loop. *)
Inductive Flow : Type := Continue | Return.

Section Controller.

Context {D : Type} {drv : Drive D}.
Variable Flag : Flags.

(** The members of [WD1770]. [drive] is the base-class subobject; the
    registers are bytes, [cycles] is an [unsigned int], the two counters
    are [int]s. *)
Record WD1770 : Type := mkWD1770 {
  drive : D;
  cycles : Z;
  state_ : State;
  wait_six_index_pulses_next_state : State;
  step_delay_count : Z;
  status_ : Z;
  track_ : Z;
  sector_ : Z;
  data_ : Z;
  data_shift_register_ : Z;
  command_ : Z;
  has_command_ : bool;
  index_hole_count_ : Z;
  is_step_in_ : bool;
  interrupt_request_line_ : bool
}.

(** Member updates. *)
Definition with_drive (v : D) (s : WD1770) : WD1770 :=
  mkWD1770 v (cycles s) (state_ s) (wait_six_index_pulses_next_state s)
    (step_delay_count s) (status_ s) (track_ s) (sector_ s) (data_ s)
    (data_shift_register_ s) (command_ s) (has_command_ s) (index_hole_count_
    s) (is_step_in_ s) (interrupt_request_line_ s).
Definition with_cycles (v : Z) (s : WD1770) : WD1770 :=
  mkWD1770 (drive s) v (state_ s) (wait_six_index_pulses_next_state s)
    (step_delay_count s) (status_ s) (track_ s) (sector_ s) (data_ s)
    (data_shift_register_ s) (command_ s) (has_command_ s) (index_hole_count_
    s) (is_step_in_ s) (interrupt_request_line_ s).
Definition with_state_ (v : State) (s : WD1770) : WD1770 :=
  mkWD1770 (drive s) (cycles s) v (wait_six_index_pulses_next_state s)
    (step_delay_count s) (status_ s) (track_ s) (sector_ s) (data_ s)
    (data_shift_register_ s) (command_ s) (has_command_ s) (index_hole_count_
    s) (is_step_in_ s) (interrupt_request_line_ s).
Definition with_wait_six_index_pulses_next_state (v : State) (s : WD1770) :
    WD1770 :=
  mkWD1770 (drive s) (cycles s) (state_ s) v (step_delay_count s) (status_ s)
    (track_ s) (sector_ s) (data_ s) (data_shift_register_ s) (command_ s)
    (has_command_ s) (index_hole_count_ s) (is_step_in_ s)
    (interrupt_request_line_ s).
Definition with_step_delay_count (v : Z) (s : WD1770) : WD1770 :=
  mkWD1770 (drive s) (cycles s) (state_ s) (wait_six_index_pulses_next_state
    s) v (status_ s) (track_ s) (sector_ s) (data_ s) (data_shift_register_ s)
    (command_ s) (has_command_ s) (index_hole_count_ s) (is_step_in_ s)
    (interrupt_request_line_ s).
Definition with_status_ (v : Z) (s : WD1770) : WD1770 :=
  mkWD1770 (drive s) (cycles s) (state_ s) (wait_six_index_pulses_next_state
    s) (step_delay_count s) v (track_ s) (sector_ s) (data_ s)
    (data_shift_register_ s) (command_ s) (has_command_ s) (index_hole_count_
    s) (is_step_in_ s) (interrupt_request_line_ s).
Definition with_track_ (v : Z) (s : WD1770) : WD1770 :=
  mkWD1770 (drive s) (cycles s) (state_ s) (wait_six_index_pulses_next_state
    s) (step_delay_count s) (status_ s) v (sector_ s) (data_ s)
    (data_shift_register_ s) (command_ s) (has_command_ s) (index_hole_count_
    s) (is_step_in_ s) (interrupt_request_line_ s).
Definition with_sector_ (v : Z) (s : WD1770) : WD1770 :=
  mkWD1770 (drive s) (cycles s) (state_ s) (wait_six_index_pulses_next_state
    s) (step_delay_count s) (status_ s) (track_ s) v (data_ s)
    (data_shift_register_ s) (command_ s) (has_command_ s) (index_hole_count_
    s) (is_step_in_ s) (interrupt_request_line_ s).
Definition with_data_ (v : Z) (s : WD1770) : WD1770 :=
  mkWD1770 (drive s) (cycles s) (state_ s) (wait_six_index_pulses_next_state
    s) (step_delay_count s) (status_ s) (track_ s) (sector_ s) v
    (data_shift_register_ s) (command_ s) (has_command_ s) (index_hole_count_
    s) (is_step_in_ s) (interrupt_request_line_ s).
Definition with_data_shift_register_ (v : Z) (s : WD1770) : WD1770 :=
  mkWD1770 (drive s) (cycles s) (state_ s) (wait_six_index_pulses_next_state
    s) (step_delay_count s) (status_ s) (track_ s) (sector_ s) (data_ s) v
    (command_ s) (has_command_ s) (index_hole_count_ s) (is_step_in_ s)
    (interrupt_request_line_ s).
Definition with_command_ (v : Z) (s : WD1770) : WD1770 :=
  mkWD1770 (drive s) (cycles s) (state_ s) (wait_six_index_pulses_next_state
    s) (step_delay_count s) (status_ s) (track_ s) (sector_ s) (data_ s)
    (data_shift_register_ s) v (has_command_ s) (index_hole_count_ s)
    (is_step_in_ s) (interrupt_request_line_ s).
Definition with_has_command_ (v : bool) (s : WD1770) : WD1770 :=
  mkWD1770 (drive s) (cycles s) (state_ s) (wait_six_index_pulses_next_state
    s) (step_delay_count s) (status_ s) (track_ s) (sector_ s) (data_ s)
    (data_shift_register_ s) (command_ s) v (index_hole_count_ s) (is_step_in_
    s) (interrupt_request_line_ s).
Definition with_index_hole_count_ (v : Z) (s : WD1770) : WD1770 :=
  mkWD1770 (drive s) (cycles s) (state_ s) (wait_six_index_pulses_next_state
    s) (step_delay_count s) (status_ s) (track_ s) (sector_ s) (data_ s)
    (data_shift_register_ s) (command_ s) (has_command_ s) v (is_step_in_ s)
    (interrupt_request_line_ s).
Definition with_is_step_in_ (v : bool) (s : WD1770) : WD1770 :=
  mkWD1770 (drive s) (cycles s) (state_ s) (wait_six_index_pulses_next_state
    s) (step_delay_count s) (status_ s) (track_ s) (sector_ s) (data_ s)
    (data_shift_register_ s) (command_ s) (has_command_ s) (index_hole_count_
    s) v (interrupt_request_line_ s).
Definition with_interrupt_request_line_ (v : bool) (s : WD1770) : WD1770 :=
  mkWD1770 (drive s) (cycles s) (state_ s) (wait_six_index_pulses_next_state
    s) (step_delay_count s) (status_ s) (track_ s) (sector_ s) (data_ s)
    (data_shift_register_ s) (command_ s) (has_command_ s) (index_hole_count_
    s) (is_step_in_ s) v.

(** [WD1770::WD1770()]: [state_(State::Waiting), status_(0),
    has_command_(false)]; the members the initialiser list leaves out
    keep whatever [uninitialised] holds. The base-class arguments and
    [set_is_double_density(false)] configure the drive only. *)
Definition WD1770_new (uninitialised : WD1770) : WD1770 :=
  with_state_ Waiting (with_status_ 0 (with_has_command_ false uninitialised)).

(** [set_register] *)
Definition set_register (address value : Z) (s : WD1770) : WD1770 :=
  let value := uint8_t value in
  match Z.land address 3 with
  | 0 => with_has_command_ true (with_command_ value s)
  | 1 => with_track_ value s
  | 2 => with_sector_ value s
  | _ => with_data_ value s
  end.

(** A fresh controller with the track and data registers preset to 5. *)
Definition preset_to_5 (uninitialised : WD1770) : WD1770 :=
  set_register 3 5 (set_register 1 5 (WD1770_new uninitialised)).

(** [get_register] *)
Definition get_register (address : Z) (s : WD1770) : Z :=
  match Z.land address 3 with
  | 1 => track_ s
  | 2 => sector_ s
  | 3 => data_ s
  | _ => status_ s
  end.

(** Modelled from the spec: [set_interrupt_request] is declared in
    1770.hpp, which is absent; the spec has the controller raise its
    interrupt on completion, so the request is a line the controller
    drives. *)
Definition set_interrupt_request (b : bool) (s : WD1770) : WD1770 :=
  with_interrupt_request_line_ b s.

(** [index_hole_count_++] on an [int]. *)
Definition process_index_hole (s : WD1770) : WD1770 :=
  let s := with_index_hole_count_ (int32_t (index_hole_count_ s + 1)) s in
  if State_beq (state_ s) WaitForSixIndexPulses && (index_hole_count_ s =? 6)
  then with_state_ (wait_six_index_pulses_next_state s) s
  else s.

(** [process_input_bit] has an empty body. *)
Definition process_input_bit (value cycles_since_index_hole : Z)
    (s : WD1770) : WD1770 := s.

(** [k] index-hole notifications in a row. *)
Fixpoint index_holes (k : nat) (s : WD1770) : WD1770 :=
  match k with
  | O => s
  | S k' => process_index_hole (index_holes k' s)
  end.

Definition deliver (s : WD1770) (e : DriveEvent) : WD1770 :=
  match e with
  | InputBit v c => process_input_bit v c s
  | IndexHole => process_index_hole s
  end.

(** [if(status_ & Flag::MotorOn) Storage::Disk::Drive::run_for_cycles(1);] *)
Definition advance_drive (s : WD1770) : WD1770 :=
  if test (status_ s) (MotorOn Flag) then
    let (d', events) := drive_run_for_cycles 1 (drive s) in
    fold_left deliver events (with_drive d' s)
  else s.

(** [case State::BeginType1PostSpin]: the inner [switch(command_ >> 4)]. *)
Definition post_spin_setup (s : WD1770) : WD1770 :=
  match Z.shiftr (command_ s) 4 with
  | 0 => with_data_ 0x00 (with_track_ 0xff s)
  | 1 => with_data_ 0x00 s
  | 2 | 3 => s
  | 4 | 5 => with_is_step_in_ true s
  | 6 | 7 => with_is_step_in_ false s
  | _ => s
  end.

(** The [switch(state_)] of [run_for_cycles]: one case per [State];
    [continue] goes round the loop, the [default] case returns. *)
Definition dispatch (g : Statics) (s : WD1770) : Statics * WD1770 * Flow :=
  match state_ s with
  | Waiting =>
      if has_command_ s then
        let s := with_has_command_ false s in
        let next :=
          if test (command_ s) 0x80
          then (if test (command_ s) 0x40 then BeginType3 else BeginType2)
          else BeginType1 in
        (g, with_state_ next s, Continue)
      else (g, s, Continue)
  | WaitForSixIndexPulses =>
      (g, with_status_ (uint8_t (Z.lor (status_ s) (MotorOn Flag))) s, Continue)
  | BeginType1 =>
      let s := with_status_ (uint8_t (Z.lor (status_ s) (Busy Flag))) s in
      let s := with_status_
                 (uint8_t (Z.land (status_ s)
                    (Z.lnot (Z.lor (DataRequest Flag) (CRCError Flag))))) s in
      let s := set_interrupt_request false s in
      let s := with_state_ BeginType1PostSpin s in
      if test (command_ s) 0x08 then
        let s := with_wait_six_index_pulses_next_state (state_ s) s in
        let s := with_index_hole_count_ 0 s in
        (g, with_state_ WaitForSixIndexPulses s, Continue)
      else (g, s, Continue)
  | BeginType1PostSpin =>
      let s := post_spin_setup s in
      let next :=
        if Z.shiftr (command_ s) 5 =? 0 then TestTrack
        else if test (command_ s) 0x10 then TestDirection else TestHead in
      (g, with_state_ next s, Continue)
  | TestTrack =>
      let s := with_data_shift_register_ (data_ s) s in
      if track_ s =? data_shift_register_ s then
        (g, with_state_ TestVerify s, Continue)
      else
        let s := with_is_step_in_ (data_shift_register_ s <? track_ s) s in
        (g, with_state_ TestDirection s, Continue)
  | TestDirection =>
      let s := with_track_
                 (uint8_t (track_ s + (if is_step_in_ s then -1 else 1))) s in
      (g, with_state_ TestHead s, Continue)
  | TestHead =>
      if get_is_track_zero (drive s) && negb (is_step_in_ s) then
        (g, with_state_ TestVerify (with_track_ 0 s), Continue)
      else
        let s := with_drive (step (if is_step_in_ s then 1 else -1) (drive s)) s in
        let s := with_state_ StepDelay s in
        (g, with_step_delay_count 0 s, Continue)
  | StepDelay =>
      let s :=
        if step_delay_count s =? Z.land (command_ s) 3 then
          with_state_
            (if Z.shiftr (command_ s) 5 =? 0 then TestTrack else TestVerify) s
        else s in
      (g, with_step_delay_count (int32_t (step_delay_count s + 1)) s, Continue)
  | TestVerify =>
      if test (command_ s) 0x04 then
        (g, with_state_ VerifyTrack s, Continue)
      else
        let s := set_interrupt_request true s in
        let s := with_status_
                   (uint8_t (Z.land (status_ s) (Z.lnot (Busy Flag)))) s in
        (g, with_state_ Waiting s, Continue)
  | BeginType2 =>
      let s := with_status_ (uint8_t (Z.lor (status_ s) (Busy Flag))) s in
      let s := with_status_
                 (uint8_t (Z.land (status_ s)
                    (Z.lnot (Z.lor (Z.lor (Z.lor (DataRequest Flag)
                       (LostData Flag)) (RecordNotFound Flag)) 0x60)))) s in
      let s := with_state_ TestPause s in
      if negb (test (command_ s) 0x08) then
        let s := with_wait_six_index_pulses_next_state (state_ s) s in
        let s := with_index_hole_count_ 0 s in
        (g, with_state_ WaitForSixIndexPulses s, Continue)
      else (g, s, Continue)
  | TestPause =>
      (g, with_state_ TestWrite s, Continue)
  | BeginType3 | VerifyTrack | TestWrite =>
      let g' :=
        if has_hit_error g then g
        else mkStatics (has_hit_error g) (printed g ++ [state_ s]) in
      (mkStatics true (printed g'), s, Return)
  end.

(** One pass of the loop body: [cycles -= 8], the drive, the [switch]. *)
Definition quantum (g : Statics) (s : WD1770) : Statics * WD1770 * Flow :=
  dispatch g (advance_drive (with_cycles (uint32_t (cycles s - 8)) s)).

(** [while(cycles > 8) { ... }]. Every pass takes 8 from [cycles], so
    [fuel] passes suffice when [cycles <= 8 * fuel + 8]. *)
Fixpoint run_loop (fuel : nat) (g : Statics) (s : WD1770) : Statics * WD1770 :=
  if 8 <? cycles s then
    match fuel with
    | O => (g, s)
    | S fuel' =>
        match quantum g s with
        | (g', s', Continue) => run_loop fuel' g' s'
        | (g', s', Return) => (g', s')
        end
    end
  else (g, s).

(** [run_for_cycles] *)
Definition run_for_cycles (number_of_cycles : Z) (g : Statics) (s : WD1770)
    : Statics * WD1770 :=
  let s := with_cycles (uint32_t (cycles s + number_of_cycles)) s in
  run_loop (Z.to_nat (cycles s / 8)) g s.

(** A host that only ticks: [run_for_cycles] once per element. *)
Definition run_ticks (ns : list Z) (g : Statics) (s : WD1770)
    : Statics * WD1770 :=
  fold_left (fun gs n => run_for_cycles n (fst gs) (snd gs)) ns (g, s).

(** The input clock cycles a sequence of ticks supplies. *)
Definition total_cycles (ns : list Z) : Z := fold_right Z.add 0 ns.

(** A tick the accumulator takes without wrapping when it starts at 8 or
    less, as every completed [run_for_cycles] leaves it. *)
Definition tick_ok (n : Z) : Prop := 0 <= n < 2 ^ 32 - 8.

(** [k] passes of the loop body, stopping early at a [Return]. *)
Fixpoint quanta (k : nat) (g : Statics) (s : WD1770) : Statics * WD1770 :=
  match k with
  | O => (g, s)
  | S k' =>
      match quantum g s with
      | (g', s', Continue) => quanta k' g' s'
      | (g', s', Return) => (g', s')
      end
  end.

(** *** The restore path

    A restore ([command_ = r], [0 <= r <= 3]: no verify, step rate [r])
    walks [Waiting], [BeginType1], [BeginType1PostSpin] and then, per
    track, [TestTrack], [TestDirection], [TestHead] and [r + 1] passes of
    [StepDelay]. *)

(** Loop passes from acceptance of the command to completion. *)
Definition restore_quanta (r : Z) : Z := 255 * (r + 4) + 5.

(** Loop passes a controller on the restore path still needs. *)
Definition restore_remaining (r : Z) (s : WD1770) : Z :=
  match state_ s with
  | Waiting => if has_command_ s then restore_quanta r else 0
  | BeginType1 => restore_quanta r - 1
  | BeginType1PostSpin => restore_quanta r - 2
  | TestTrack => track_ s * (r + 4) + 2
  | TestDirection => track_ s * (r + 4) + 1
  | TestHead => track_ s * (r + 4) + (r + 4)
  | StepDelay => track_ s * (r + 4) + 2 + (r + 1 - step_delay_count s)
  | TestVerify => 1
  | _ => 0
  end.

(** The controller has completed the command: idle, interrupt raised,
    [Busy] clear, track register at 0. *)
Definition completed (s : WD1770) : Prop :=
  state_ s = Waiting /\ has_command_ s = false /\ track_ s = 0 /\
  interrupt_request_line_ s = true /\ Z.land (status_ s) (Busy Flag) = 0.

(** The states of a restore in progress, with what each one relies on. *)
Definition restoring (r : Z) (s : WD1770) : Prop :=
  command_ s = r /\
  match state_ s with
  | Waiting => has_command_ s = true \/ completed s
  | BeginType1 | BeginType1PostSpin => has_command_ s = false
  | TestTrack =>
      has_command_ s = false /\ data_ s = 0 /\ 0 <= track_ s <= 255
  | TestDirection =>
      has_command_ s = false /\ data_ s = 0 /\ 1 <= track_ s <= 255 /\
      is_step_in_ s = true
  | TestHead =>
      has_command_ s = false /\ data_ s = 0 /\ 0 <= track_ s <= 254 /\
      is_step_in_ s = true
  | StepDelay =>
      has_command_ s = false /\ data_ s = 0 /\ 0 <= track_ s <= 254 /\
      0 <= step_delay_count s <= r
  | TestVerify => has_command_ s = false /\ track_ s = 0
  | _ => False
  end.

(** The states the [switch] has no case for: they reach [default]. *)
Definition unhandled (st : State) : bool :=
  match st with
  | BeginType3 | VerifyTrack | TestWrite => true
  | _ => false
  end.

(** What the [default] case leaves in the statics. *)
Definition after_default (g : Statics) (st : State) : Statics :=
  mkStatics true (if has_hit_error g then printed g else printed g ++ [st]).

(** Diagnostics the statics can still emit. *)
Definition budget (g : Statics) : nat := if has_hit_error g then 0 else 1.

(** The loop passes [run_loop] makes: the same recursion, counting. *)
Fixpoint passes (fuel : nat) (g : Statics) (s : WD1770) : nat :=
  if 8 <? cycles s then
    match fuel with
    | O => O
    | S fuel' =>
        match quantum g s with
        | (g', s', Continue) => S (passes fuel' g' s')
        | (_, _, Return) => 1%nat
        end
    end
  else O.

(** The loop passes of one [run_for_cycles]. *)
Definition passes_of_call (number_of_cycles : Z) (g : Statics) (s : WD1770)
    : nat :=
  let s := with_cycles (uint32_t (cycles s + number_of_cycles)) s in
  passes (Z.to_nat (cycles s / 8)) g s.

(** Several controllers in one process: each call ticks some controller,
    and only the statics pass from one call to the next. *)
Definition run_calls (calls : list (Z * WD1770)) (g : Statics) : Statics :=
  fold_left (fun g c => fst (run_for_cycles (fst c) g (snd c))) calls g.

(** What is still owed: nothing, or no more than the cycles at hand plus
    the [later] ones can pay for. *)
Definition solvent (r : Z) (later : Z) (s : WD1770) : Prop :=
  restore_remaining r s <= 0 \/
  8 * restore_remaining r s + 8 <= cycles s + later.

(** The claim that command 0x03 on a controller preset to track 5 ends
    in [Waiting], not busy, with the track register still at 5, as a
    statement about the model: from some amount of ticking on, that is
    the state. *)
Definition track_stays_at_5 (g : Statics) (uninitialised : WD1770) : Prop :=
  exists enough, forall ns,
    Forall tick_ok ns -> enough <= total_cycles ns ->
    let result :=
      run_ticks ns g (set_register 0 0x03 (preset_to_5 uninitialised)) in
    state_ (snd result) = Waiting /\
    Z.land (status_ (snd result)) (Busy Flag) = 0 /\
    track_ (snd result) = 5.

End Controller.

Arguments WD1770 D : clear implicits.
Arguments restore_quanta : simpl never.

(** *** Drives to run the controller against *)

(** The calls a controller makes into its [Storage::Disk::Drive] base. *)
Inductive DriveCall : Type :=
  | CalledStep (direction : Z)
  | CalledRunForCycles (number_of_cycles : Z).

(** Any drive, keeping a record of the calls made into it. *)
#[export] Instance recording (D : Type) {drv : Drive D}
    : Drive (D * list DriveCall) := {
  step direction d :=
    (step direction (fst d), snd d ++ [CalledStep direction]);
  get_is_track_zero d := get_is_track_zero (fst d);
  drive_run_for_cycles n d :=
    let (d', events) := drive_run_for_cycles n (fst d) in
    ((d', snd d ++ [CalledRunForCycles n]), events)
}.

(** The lengths, in cycles, of the advances the controller has asked of
    the drive through [Drive::run_for_cycles], in order. *)
Definition advances {D : Type} (d : D * list DriveCall) : list Z :=
  flat_map (fun c => match c with
                     | CalledRunForCycles number_of_cycles => [number_of_cycles]
                     | CalledStep _ => []
                     end) (snd d).

(** The directions of the head steps the controller has asked for, in
    order. *)
Definition steps_made {D : Type} (d : D * list DriveCall) : list Z :=
  flat_map (fun c => match c with
                     | CalledStep direction => [direction]
                     | CalledRunForCycles _ => []
                     end) (snd d).

(** Head steps a restore has made when it is in a given state with a
    given track register. *)
Definition restore_steps {D : Type} (s : WD1770 D) : Z :=
  match state_ s with
  | Waiting => if has_command_ s then 0 else 255
  | TestTrack | TestDirection | StepDelay => 255 - track_ s
  | TestHead => 254 - track_ s
  | TestVerify => 255
  | _ => 0
  end.

(** A drive with a head position and an index hole every [period]
    cycles of rotation: enough of a drive to run the controller. *)
Record SimpleDrive : Type := mkSimpleDrive {
  head : Z;
  rotation : Z;
  period : Z
}.

#[export] Instance simple_drive : Drive SimpleDrive := {
  step direction d :=
    mkSimpleDrive (Z.max 0 (head d + direction)) (rotation d) (period d);
  get_is_track_zero d := head d =? 0;
  drive_run_for_cycles n d :=
    let r := rotation d + n in
    if period d <=? r
    then (mkSimpleDrive (head d) (r - period d) (period d), [IndexHole])
    else (mkSimpleDrive (head d) r (period d), [])
}.

(** The status-register layout of the WD1770 data sheet: bit 7 motor on,
    bit 4 record not found, bit 3 CRC error, bit 2 lost data, bit 1 data
    request, bit 0 busy. *)
Definition datasheet_flags : Flags :=
  mkFlags 0x80 0x10 0x08 0x04 0x02 0x01.

(** A controller straight out of the constructor, the members it leaves
    uninitialised at zero, on a drive whose head rests on track 40. *)
Definition fresh_controller : WD1770 SimpleDrive :=
  WD1770_new
    (mkWD1770 (mkSimpleDrive 40 0 1000) 0 Waiting Waiting 0 0 0 0 0 0
       0 false 0 false false).

Definition no_diagnostic : Statics := mkStatics false [].

(** A controller waiting for its sixth index pulse, bound for
    [BeginType1PostSpin]. *)
Definition waiting_for_pulses : WD1770 SimpleDrive :=
  with_wait_six_index_pulses_next_state BeginType1PostSpin
    (with_state_ WaitForSixIndexPulses fresh_controller).

(** A fresh controller on a drive that records its calls, the head
    already on track zero. *)
Definition recorded_controller : WD1770 (SimpleDrive * list DriveCall) :=
  WD1770_new
    (mkWD1770 (mkSimpleDrive 0 0 1000, []) 0 Waiting Waiting 0 0 0 0 0 0
       0 false 0 false false).

(** *** A host driving the controller, and the Type 1 paths *)

(** What the owner of a controller does with it: write a register, or
    let time pass. *)
Inductive HostOp : Type :=
  | Write (address value : Z)
  | Tick (number_of_cycles : Z).

Section Host.

Context {D : Type} {drv : Drive D}.
Variable Flag : Flags.

Definition host_step (gs : Statics * WD1770 D) (op : HostOp)
    : Statics * WD1770 D :=
  match op with
  | Write address value => (fst gs, set_register address value (snd gs))
  | Tick n => run_for_cycles Flag n (fst gs) (snd gs)
  end.

Definition run_host (ops : list HostOp) (g : Statics) (s : WD1770 D)
    : Statics * WD1770 D :=
  fold_left host_step ops (g, s).

(** The members a register read or the interrupt line shows, with the
    state and what the state machine keeps between passes: everything but
    the accumulator, the drive and the index-hole counter. *)
Definition registers (s : WD1770 D) :=
  (state_ s, wait_six_index_pulses_next_state s, step_delay_count s,
   status_ s, track_ s, sector_ s, data_ s, data_shift_register_ s,
   command_ s, has_command_ s, is_step_in_ s, interrupt_request_line_ s).

(** Idle again after a command: interrupt raised, [Busy] clear. *)
Definition finished (s : WD1770 D) : Prop :=
  state_ s = Waiting /\ has_command_ s = false /\
  interrupt_request_line_ s = true /\ Z.land (status_ s) (Busy Flag) = 0.

(** Seek with step rate [r]: command byte [0x10 + r]. Loop passes a
    controller on the way still needs. *)
Definition seek_remaining (r : Z) (s : WD1770 D) : Z :=
  match state_ s with
  | Waiting => if has_command_ s then track_ s * (r + 4) + 5 else 0
  | BeginType1 => track_ s * (r + 4) + 4
  | BeginType1PostSpin => track_ s * (r + 4) + 3
  | TestTrack => track_ s * (r + 4) + 2
  | TestDirection => track_ s * (r + 4) + 1
  | TestHead => track_ s * (r + 4) + (r + 4)
  | StepDelay => track_ s * (r + 4) + 2 + (r + 1 - step_delay_count s)
  | TestVerify => 1
  | _ => 0
  end.

(** The states of a seek in progress, with what each one relies on. *)
Definition seeking (r : Z) (s : WD1770 D) : Prop :=
  command_ s = 0x10 + r /\
  match state_ s with
  | Waiting =>
      (has_command_ s = true /\ 0 <= track_ s <= 255) \/
      (finished s /\ track_ s = 0 /\ data_ s = 0)
  | BeginType1 | BeginType1PostSpin =>
      has_command_ s = false /\ 0 <= track_ s <= 255
  | TestTrack =>
      has_command_ s = false /\ data_ s = 0 /\ 0 <= track_ s <= 255
  | TestDirection =>
      has_command_ s = false /\ data_ s = 0 /\ 1 <= track_ s <= 255 /\
      is_step_in_ s = true
  | TestHead =>
      has_command_ s = false /\ data_ s = 0 /\ 0 <= track_ s <= 254 /\
      is_step_in_ s = true
  | StepDelay =>
      has_command_ s = false /\ data_ s = 0 /\ 0 <= track_ s <= 254 /\
      0 <= step_delay_count s <= r
  | TestVerify => has_command_ s = false /\ track_ s = 0 /\ data_ s = 0
  | _ => False
  end.

(** The single-step commands without spin-up wait or verify: step
    ([k = 1]), step-in ([k = 2]) and step-out ([k = 3]), with the update
    flag [u] and the step rate [r]. *)
Definition step_command (k : Z) (u : bool) (r : Z) : Z :=
  32 * k + (if u then 16 else 0) + r.

(** The direction such a command steps in: step keeps the direction the
    controller has, step-in and step-out set it. *)
Definition step_direction (k : Z) (is_step_in : bool) : bool :=
  if k =? 1 then is_step_in else (k =? 2).

(** The track register after the update, if the flag asks for one. *)
Definition stepped_track (u inward : bool) (track : Z) : Z :=
  if u then uint8_t (track + (if inward then -1 else 1)) else track.

(** Loop passes a controller on the way through a single step needs at
    most. *)
Definition step_remaining (u : bool) (r : Z) (s : WD1770 D) : Z :=
  match state_ s with
  | Waiting => if has_command_ s then r + 6 + (if u then 1 else 0) else 0
  | BeginType1 => r + 5 + (if u then 1 else 0)
  | BeginType1PostSpin => r + 4 + (if u then 1 else 0)
  | TestDirection => r + 4
  | TestHead => r + 3
  | StepDelay => r + 2 - step_delay_count s
  | TestVerify => 1
  | _ => 0
  end.

(** Where a single step may leave the track register: updated or not as
    the flag says, or at 0 when the drive reports track zero on the way
    out. *)
Definition step_outcome (u inward : bool) (track0 track : Z) : Prop :=
  track = stepped_track u inward track0 \/ (inward = false /\ track = 0).

(** The states of a single step in progress, from a controller whose
    track register held [track0] and whose direction flag was [dir0]. *)
Definition stepping (k : Z) (u : bool) (r : Z) (track0 : Z) (dir0 : bool)
    (s : WD1770 D) : Prop :=
  let inward := step_direction k dir0 in
  command_ s = step_command k u r /\
  match state_ s with
  | Waiting =>
      (has_command_ s = true /\ track_ s = track0 /\ is_step_in_ s = dir0) \/
      (finished s /\ step_outcome u inward track0 (track_ s))
  | BeginType1 | BeginType1PostSpin =>
      has_command_ s = false /\ track_ s = track0 /\ is_step_in_ s = dir0
  | TestDirection =>
      u = true /\ has_command_ s = false /\ track_ s = track0 /\
      is_step_in_ s = inward
  | TestHead =>
      has_command_ s = false /\ track_ s = stepped_track u inward track0 /\
      is_step_in_ s = inward
  | StepDelay =>
      has_command_ s = false /\ track_ s = stepped_track u inward track0 /\
      0 <= step_delay_count s <= r
  | TestVerify =>
      has_command_ s = false /\ step_outcome u inward track0 (track_ s)
  | _ => False
  end.

(** A command that can never complete is in progress or pending: a Type
    2 or Type 3 command (bit 7 set), whose path ends in a state without a
    case. *)
Definition beyond_type1 (s : WD1770 D) : Prop :=
  test (command_ s) 0x80 = true /\
  match state_ s with
  | Waiting => has_command_ s = true
  | BeginType2 | BeginType3 | TestPause | TestWrite => True
  | WaitForSixIndexPulses => wait_six_index_pulses_next_state s = TestPause
  | _ => False
  end.

(** A Type 1 command with the verify flag (bit 2) is pending or in
    progress; its path ends in [VerifyTrack], which has no case. *)
Definition verifying (s : WD1770 D) : Prop :=
  test (command_ s) 0x80 = false /\ test (command_ s) 0x04 = true /\
  match state_ s with
  | Waiting => has_command_ s = true
  | WaitForSixIndexPulses =>
      wait_six_index_pulses_next_state s = BeginType1PostSpin
  | BeginType1 | BeginType1PostSpin | TestTrack | TestDirection | TestHead
  | StepDelay | TestVerify | VerifyTrack => True
  | _ => False
  end.

(** All of the motor-on bits are set in the status. *)
Definition motor_is_on (s : WD1770 D) : Prop :=
  Z.land (status_ s) (MotorOn Flag) = MotorOn Flag.

(** The masks the state machine clears from the status. *)
Definition cleared_masks : list Z :=
  [ Z.lor (DataRequest Flag) (CRCError Flag);
    Busy Flag;
    Z.lor (Z.lor (Z.lor (DataRequest Flag) (LostData Flag))
             (RecordNotFound Flag)) 0x60 ].

(** The states in which a command is being carried out: all but idle and
    the three entry states, which have yet to touch the status. *)
Definition running (st : State) : bool :=
  match st with
  | Waiting | BeginType1 | BeginType2 | BeginType3 => false
  | _ => true
  end.

(** A status read shows [Busy] whenever a command is being carried
    out. *)
Definition busy_while_running (s : WD1770 D) : Prop :=
  running (state_ s) = true -> Z.land (status_ s) (Busy Flag) = Busy Flag.

(** The masks the state machine clears from the status on entry to a
    command. *)
Definition entry_masks : list Z :=
  [ Z.lor (DataRequest Flag) (CRCError Flag);
    Z.lor (Z.lor (Z.lor (DataRequest Flag) (LostData Flag))
             (RecordNotFound Flag)) 0x60 ].

End Host.

End WD.

(** ** The Amiga: construction and the 68000 bus *)

Module Amiga.
Import Fixed.

(** [constexpr int PALClockRate], [NTSCClockRate] *)
Definition PALClockRate : Z := 7093790.
Definition NTSCClockRate : Z := 7159090.

(** Modelled from the spec: the bit constants of
    [CPU::MC68000::Microcycle] are declared in 68000.hpp, which is absent;
    the spec has the operation kind as a combinable bit set, so every bit
    the bus handler tests is a boolean here. *)
Record Operation : Type := mkOperation {
  NewAddress : bool;
  SameAddress : bool;
  Read : bool;
  SelectByte : bool;
  SelectWord : bool;
  Reset : bool;
  InterruptAcknowledge : bool
}.

(** Modelled from the spec: a bus cycle carries its operation kind, its
    duration in half cycles, an address and a data value. *)
Record Microcycle : Type := mkMicrocycle {
  operation : Operation;
  length : Z;
  address : Z;
  value : Z
}.

(** Modelled from the spec: [Microcycle::set_value16] is declared in
    68000.hpp, which is absent; the bus handler mutates the data field of
    the cycle through it, so it stores the 16-bit value there. *)
Definition set_value16 (v : Z) (c : Microcycle) : Microcycle :=
  mkMicrocycle (operation c) (length c) (address c) (uint16_t v).

(** [ROMMachine::Error] *)
Inductive Error : Type := MissingROMs.

(** [Analyser::Static::Media] and the Amiga [Target], as far as the
    machine reads them. *)
Record Media (Disks : Type) : Type := mkMedia { disks : Disks }.
Record Target (Disks : Type) : Type := mkTarget { media : Media Disks }.
Arguments disks {Disks} _.
Arguments media {Disks} _.

(** The collaborators of [ConcreteMachine] whose code is elsewhere: the
    68000, the [MemoryMap], the [Chipset] with its two CIAs, the
    accessors of [Microcycle], and the ROM catalogue. The chipset is
    constructed on a reference to the memory map, so what it does may
    touch both. *)
Class Hardware (Cpu MemoryMap Chipset Disks Name Request Map : Type)
    : Type := {
  (* CPU::MC68000::Processor *)
  Processor : Cpu;
  set_interrupt_level : Z -> Cpu -> Cpu;
  set_is_peripheral_address : bool -> Cpu -> Cpu;
  (* MemoryMap *)
  MemoryMap_new : MemoryMap;
  reset : MemoryMap -> MemoryMap;
  read_write_mask : MemoryMap -> Z -> Z;
  (* Memory::PackBigEndian16(source, memory_.kickstart.data()) *)
  PackBigEndian16_kickstart : list Z -> MemoryMap -> MemoryMap;
  (* cycle.apply(&regions[...].contents[address], read_write_mask) *)
  apply : Microcycle -> Z -> MemoryMap -> MemoryMap * Microcycle;
  (* Microcycle *)
  host_endian_byte_address : Microcycle -> Z;
  value8_low : Microcycle -> Z;
  value8_high : Microcycle -> Z;
  (* Chipset *)
  Chipset_new : Z -> Chipset;
  run_until_cpu_slot : Chipset * MemoryMap -> Chipset * MemoryMap * Z;
  run_for : Z -> Chipset * MemoryMap -> Chipset * MemoryMap;
  get_interrupt_level : Chipset -> Z;
  cia_a_read : Z -> Chipset -> Chipset * Z;
  cia_b_read : Z -> Chipset -> Chipset * Z;
  cia_a_write : Z -> Z -> Chipset -> Chipset;
  cia_b_write : Z -> Z -> Chipset -> Chipset;
  perform :
    Microcycle -> Chipset * MemoryMap -> Chipset * MemoryMap * Microcycle;
  insert : Disks -> Chipset -> Chipset * bool;
  (* ROM *)
  AmigaA500Kickstart13 : Name;
  Request_of : Name -> Request;
  validate : Request -> Map -> bool * Map;
  find : Name -> Map -> option (list Z)
}.

Section Machine.

Context {Cpu MemoryMap Chipset Disks Name Request Map : Type}.
Context {hw : Hardware Cpu MemoryMap Chipset Disks Name Request Map}.

(** The data members of [ConcreteMachine], and the clock rate its
    [TimedMachine] base keeps. *)
Record ConcreteMachine : Type := mkConcreteMachine {
  mc68000_ : Cpu;
  memory_ : MemoryMap;
  chipset_ : Chipset;
  clock_rate : Z
}.

(** How the constructor ends: with a machine, with a [throw], or in the
    undefined dereference of [roms.find(rom_name)] at [end()]. *)
Inductive Construction : Type :=
  | Constructed (machine : ConcreteMachine)
  | Thrown (error : Error)
  | DereferencedEnd.

(** [insert_media] *)
Definition insert_media (m : Media Disks) (machine : ConcreteMachine)
    : ConcreteMachine * bool :=
  let (chipset, ok) := insert (disks m) (chipset_ machine) in
  (mkConcreteMachine (mc68000_ machine) (memory_ machine) chipset
     (clock_rate machine), ok).

(** [ConcreteMachine::ConcreteMachine(target, rom_fetcher)] *)
Definition ConcreteMachine_new (target : Target Disks)
    (rom_fetcher : Request -> Map) : Construction :=
  let machine :=
    mkConcreteMachine Processor MemoryMap_new (Chipset_new PALClockRate) 0 in
  let rom_name := AmigaA500Kickstart13 in
  let request := Request_of rom_name in
  let roms := rom_fetcher request in
  let (valid, roms) := validate request roms in
  if negb valid then Thrown MissingROMs
  else
    match find rom_name roms with
    | None => DereferencedEnd
    | Some rom =>
        let machine :=
          mkConcreteMachine (mc68000_ machine)
            (PackBigEndian16_kickstart rom (memory_ machine))
            (chipset_ machine) (clock_rate machine) in
        let machine :=
          mkConcreteMachine (mc68000_ machine) (memory_ machine)
            (chipset_ machine) PALClockRate in
        Constructed (fst (insert_media (media target) machine))
    end.

(** [Machine::Amiga]: the [new Amiga::ConcreteMachine] expression hands
    on what the constructor does; a [throw] leaves no object behind. *)
Definition Machine_Amiga (target : Target Disks)
    (rom_fetcher : Request -> Map) : Construction :=
  ConcreteMachine_new target rom_fetcher.

(** The head of [perform_bus_operation]: the chipset is run for the
    cycle (after the wait for a CPU slot, on a chip-RAM access), the
    interrupt level is passed on and a reset is applied. Returns the
    machine and [access_delay]. *)
Definition advance (cycle : Microcycle) (m : ConcreteMachine)
    : ConcreteMachine * Z :=
  let '(chipset, memory, access_delay) :=
    if NewAddress (operation cycle) && (address cycle <? 0x200000)
    then run_until_cpu_slot (chipset_ m, memory_ m)
    else (chipset_ m, memory_ m, 0) in
  let total_length := length cycle + access_delay in
  let (chipset, memory) := run_for total_length (chipset, memory) in
  let cpu := set_interrupt_level (get_interrupt_level chipset) (mc68000_ m) in
  let memory := if Reset (operation cycle) then reset memory else memory in
  (mkConcreteMachine cpu memory chipset (clock_rate m), access_delay).

(** The CIA branch of the address decoding. *)
Definition cia_access (cycle : Microcycle) (address : Z) (chipset : Chipset)
    : Chipset * Microcycle :=
  let reg := Z.shiftr address 8 in
  if Read (operation cycle) then
    let result := 0xffff in
    let (chipset, result) :=
      if Z.land address 0x1000 =? 0 then
        let (chipset, a) := cia_a_read reg chipset in
        (chipset, Z.land result (Z.lor 0xff00 (Z.shiftl a 0)))
      else (chipset, result) in
    let (chipset, result) :=
      if Z.land address 0x2000 =? 0 then
        let (chipset, b) := cia_b_read reg chipset in
        (chipset, Z.land result (Z.lor 0x00ff (Z.shiftl b 8)))
      else (chipset, result) in
    (chipset, set_value16 result cycle)
  else
    let chipset :=
      if Z.land address 0x1000 =? 0
      then cia_a_write reg (value8_low cycle) chipset else chipset in
    let chipset :=
      if Z.land address 0x2000 =? 0
      then cia_b_write reg (value8_high cycle) chipset else chipset in
    (chipset, cycle).

(** The address decoding of [perform_bus_operation], from
    [host_endian_byte_address] on. The [LOG] lines write to the debug
    log only and are left out. *)
Definition decode (cycle : Microcycle) (m : ConcreteMachine)
    : ConcreteMachine * Microcycle :=
  let address := host_endian_byte_address cycle in
  let cpu :=
    set_is_peripheral_address (Z.land address 0xe00000 =? 0xa00000)
      (mc68000_ m) in
  let m := mkConcreteMachine cpu (memory_ m) (chipset_ m) (clock_rate m) in
  if read_write_mask (memory_ m) (Z.shiftr address 18) =? 0 then
    if SelectByte (operation cycle) || SelectWord (operation cycle) then
      if Z.land address 0xe00000 =? 0xa00000 then
        let (chipset, cycle) := cia_access cycle address (chipset_ m) in
        (mkConcreteMachine (mc68000_ m) (memory_ m) chipset (clock_rate m),
         cycle)
      else if (0xdff000 <=? address) && (address <=? 0xdff1be) then
        let '(chipset, memory, cycle) :=
          perform cycle (chipset_ m, memory_ m) in
        (mkConcreteMachine (mc68000_ m) memory chipset (clock_rate m), cycle)
      else
        (m, if Read (operation cycle) then set_value16 0xffff cycle else cycle)
    else (m, cycle)
  else
    let (memory, cycle) := apply cycle address (memory_ m) in
    (mkConcreteMachine (mc68000_ m) memory (chipset_ m) (clock_rate m), cycle).

(** [perform_bus_operation]: the machine and the cycle as it leaves
    them, and the delay it returns. *)
Definition perform_bus_operation (cycle : Microcycle) (m : ConcreteMachine)
    : ConcreteMachine * Microcycle * Z :=
  let (m, access_delay) := advance cycle m in
  if InterruptAcknowledge (operation cycle) then
    (mkConcreteMachine (set_is_peripheral_address true (mc68000_ m))
       (memory_ m) (chipset_ m) (clock_rate m), cycle, access_delay)
  else if negb (NewAddress (operation cycle) || SameAddress (operation cycle))
  then (m, cycle, access_delay)
  else
    let (m, cycle) := decode cycle m in
    (m, cycle, access_delay).

(** The claim that every unmapped read with a byte or word select reads
    all-ones and leaves memory as it was when the address was decoded,
    as a statement about the model. *)
Definition every_unmapped_read_is_open_bus : Prop :=
  forall (cycle : Microcycle) (m : ConcreteMachine),
    Read (operation cycle) = true ->
    SelectByte (operation cycle) || SelectWord (operation cycle) = true ->
    let address := host_endian_byte_address cycle in
    let before := fst (advance cycle m) in
    read_write_mask (memory_ before) (Z.shiftr address 18) = 0 ->
    Z.land address 0xe00000 <> 0xa00000 ->
    ~ (0xdff000 <= address <= 0xdff1be) ->
    value (snd (fst (perform_bus_operation cycle m))) = 0xffff /\
    memory_ (fst (fst (perform_bus_operation cycle m))) = memory_ before.

End Machine.

Arguments ConcreteMachine Cpu MemoryMap Chipset : clear implicits.

(** *** A bare machine to run the bus handler on

    No CPU state, 64 regions of memory that are all unmapped, a chipset
    that keeps no state, and a one-entry ROM catalogue. *)
#[export] Instance bare : Hardware unit unit unit unit unit unit (option (list Z)) := {
  Processor := tt;
  set_interrupt_level _ cpu := cpu;
  set_is_peripheral_address _ cpu := cpu;
  MemoryMap_new := tt;
  reset memory := memory;
  read_write_mask _ _ := 0;
  PackBigEndian16_kickstart _ memory := memory;
  apply cycle _ memory := (memory, cycle);
  host_endian_byte_address cycle := Z.land (address cycle) 0xffffff;
  value8_low cycle := Z.land (value cycle) 0xff;
  value8_high cycle := Z.shiftr (value cycle) 8;
  Chipset_new _ := tt;
  run_until_cpu_slot cm := (cm, 0);
  run_for _ cm := cm;
  get_interrupt_level _ := 0;
  cia_a_read _ chipset := (chipset, 0xff);
  cia_b_read _ chipset := (chipset, 0xff);
  cia_a_write _ _ chipset := chipset;
  cia_b_write _ _ chipset := chipset;
  perform cycle cm := (cm, cycle);
  insert _ chipset := (chipset, true);
  AmigaA500Kickstart13 := tt;
  Request_of _ := tt;
  validate _ roms := (match roms with Some _ => true | None => false end, roms);
  find _ roms := roms
}.

Definition bare_machine : ConcreteMachine unit unit unit :=
  mkConcreteMachine tt tt tt PALClockRate.

(** A word read at 0xe00000, with the address strobe held. *)
Definition word_read : Microcycle :=
  mkMicrocycle (mkOperation false true true false true false false)
    4 0xe00000 0x1234.

(** The same cycle as an interrupt acknowledge. *)
Definition acknowledge_read : Microcycle :=
  mkMicrocycle (mkOperation false true true false true false true)
    4 0xe00000 0x1234.

(** A byte read at 0xbfe001, in CIA A's page. *)
Definition cia_a_cycle : Microcycle :=
  mkMicrocycle (mkOperation false true true true false false false)
    4 0xbfe001 0.

End Amiga.

(** ** The instruction fields *)

Module PowerPCFacts.
Import Fixed PowerPC.

Lemma uint32_idempotent w : uint32_t (uint32_t w) = uint32_t w.
Proof. unfold uint32_t, uint. apply Z.mod_mod. lia. Qed.

Lemma li_bits_range w : 0 <= li_bits w < 2 ^ 24.
Proof.
  unfold li_bits. rewrite Z.land_ones by lia. apply Z.mod_pos_bound. lia.
Qed.

Lemma bd_bits_range w : 0 <= bd_bits w < 2 ^ 14.
Proof.
  unfold bd_bits. rewrite Z.land_ones by lia. apply Z.mod_pos_bound. lia.
Qed.

Lemma li_mask w : Z.land (uint32_t w) 0x03fffffc = 4 * li_bits w.
Proof.
  unfold uint32_t, uint, li_bits.
  change 0x03fffffc with (Z.shiftl (Z.ones 24) 2).
  rewrite <- Z.land_ones by lia.
  rewrite (Z.mul_comm 4). change 4 with (2 ^ 2).
  rewrite <- Z.shiftl_mul_pow2 by lia.
  Z.bitblast.
Qed.

Lemma bd_mask w : Z.land (uint32_t w) 0xfffc = 4 * bd_bits w.
Proof.
  unfold uint32_t, uint, bd_bits.
  change 0xfffc with (Z.shiftl (Z.ones 14) 2).
  rewrite <- Z.land_ones by lia.
  rewrite (Z.mul_comm 4). change 4 with (2 ^ 2).
  rewrite <- Z.shiftl_mul_pow2 by lia.
  Z.bitblast.
Qed.

Lemma li_sign w : Z.land (Z.shiftr (uint32_t w) 25) 1 = li_bits w / 2 ^ 23.
Proof.
  unfold uint32_t, uint, li_bits.
  rewrite <- Z.shiftr_div_pow2 by lia.
  rewrite <- Z.land_ones by lia.
  change 1 with (Z.ones 1).
  Z.bitblast.
Qed.

Lemma sint_24 w :
  sint 24 (Z.shiftr w 2) =
  if li_bits w <? 2 ^ 23 then li_bits w else li_bits w - 2 ^ 24.
Proof. unfold sint, uint, li_bits. rewrite Z.land_ones by lia. reflexivity. Qed.

Lemma sint_14 w :
  sint 14 (Z.shiftr w 2) =
  if bd_bits w <? 2 ^ 13 then bd_bits w else bd_bits w - 2 ^ 14.
Proof. unfold sint, uint, bd_bits. rewrite Z.land_ones by lia. reflexivity. Qed.

Lemma li_value op sup w :
  li (Instruction_of op w sup) = 4 * sint 24 (Z.shiftr w 2).
Proof.
  unfold li, Instruction_of, opcode.
  rewrite li_mask, li_sign, sint_24.
  pose proof (li_bits_range w) as Hq.
  destruct (Z.ltb_spec (li_bits w) (2 ^ 23)) as [Hlt | Hge].
  - rewrite Z.div_small by lia. cbn [extensions Z.eqb].
    rewrite Z.lor_0_r. unfold int32_t, sint, uint.
    rewrite Z.mod_small by lia.
    destruct (Z.ltb_spec (4 * li_bits w) (2 ^ (32 - 1))); lia.
  - assert (Hd : li_bits w / 2 ^ 23 = 1).
    { symmetry. apply (Z.div_unique _ _ 1 (li_bits w - 2 ^ 23)); lia. }
    rewrite Hd. cbn [extensions Z.eqb].
    assert (Hdis : Z.land (4 * li_bits w) 0xfc000000 = 0).
    { rewrite (Z.mul_comm 4). change 4 with (2 ^ 2).
      rewrite <- Z.shiftl_mul_pow2 by lia. unfold li_bits.
      change 0xfc000000 with (Z.shiftl (Z.ones 6) 26).
      Z.bitblast. }
    rewrite <- Z.lxor_lor by exact Hdis.
    rewrite <- Z.add_nocarry_lxor by exact Hdis.
    unfold int32_t, sint, uint.
    rewrite Z.mod_small by lia.
    destruct (Z.ltb_spec (4 * li_bits w + 0xfc000000) (2 ^ (32 - 1))); lia.
Qed.

Lemma bd_value op sup w :
  bd (Instruction_of op w sup) = 4 * sint 14 (Z.shiftr w 2).
Proof.
  unfold bd, Instruction_of, opcode.
  rewrite bd_mask, sint_14.
  pose proof (bd_bits_range w) as Hq.
  unfold int16_t, sint, uint. rewrite Z.mod_small by lia.
  destruct (Z.ltb_spec (4 * bd_bits w) (2 ^ (16 - 1)));
    destruct (Z.ltb_spec (bd_bits w) (2 ^ 13)); lia.
Qed.

(** Claim C7. Decoding has no hidden state. [Instruction(opcode)] stores
    the word and always yields the tag [Undefined] with the supervisor
    flag clear, so two constructions from one word agree; and whatever
    the tag and flag of two instructions are, every field accessor reads
    the same value from both when their opcodes agree, on a single round
    of calls and on any sequence of calls. *)
Theorem decoding_is_pure (w : Z) :
  operation (Instruction_of_opcode w) = Undefined /\
  is_supervisor (Instruction_of_opcode w) = false /\
  opcode (Instruction_of_opcode w) = uint32_t w /\
  (forall (op1 op2 : Operation) (sup1 sup2 : bool),
     read_fields (Instruction_of op1 w sup1)
     = read_fields (Instruction_of op2 w sup2)) /\
  (forall (op1 op2 : Operation) (sup1 sup2 : bool) (calls : list nat),
     read_sequence (Instruction_of op1 w sup1) calls
     = read_sequence (Instruction_of op2 w sup2) calls) /\
  Datatypes.length (read_fields (Instruction_of_opcode w)) = 38%nat.
Proof.
  repeat split; try reflexivity.
Qed.

(** Claim C10. For every 32-bit opcode [li()] is four times the signed
    reading of the 24 bits 2 to 25: a multiple of 4 between [-2^25] and
    [2^25 - 4], the sign taken from bit 25. [bd()] is
    [int16_t(opcode & 0xfffc)], four times the signed reading of bits 2
    to 15, so a multiple of 4 as well. *)
Theorem li_bd_values (op : Operation) (sup : bool) (w : Z) :
  let i := Instruction_of op w sup in
  li i = 4 * sint 24 (Z.shiftr (opcode i) 2) /\
  li i mod 4 = 0 /\
  - 2 ^ 25 <= li i <= 2 ^ 25 - 4 /\
  (li i < 0 <-> Z.testbit (opcode i) 25 = true) /\
  bd i = int16_t (Z.land (opcode i) 0xfffc) /\
  bd i = 4 * sint 14 (Z.shiftr (opcode i) 2) /\
  bd i mod 4 = 0 /\
  - 2 ^ 15 <= bd i <= 2 ^ 15 - 4.
Proof.
  cbn zeta.
  assert (Hi : Instruction_of op w sup = Instruction_of op (uint32_t w) sup).
  { unfold Instruction_of. rewrite uint32_idempotent. reflexivity. }
  assert (Hop : opcode (Instruction_of op w sup) = uint32_t w) by reflexivity.
  rewrite Hop.
  assert (Hli : li (Instruction_of op w sup)
                = 4 * sint 24 (Z.shiftr (uint32_t w) 2)).
  { rewrite Hi at 1. apply li_value. }
  assert (Hbd : bd (Instruction_of op w sup)
                = 4 * sint 14 (Z.shiftr (uint32_t w) 2)).
  { rewrite Hi at 1. apply bd_value. }
  pose proof (sint_range 24 (Z.shiftr (uint32_t w) 2) ltac:(lia)) as H24.
  pose proof (sint_range 14 (Z.shiftr (uint32_t w) 2) ltac:(lia)) as H14.
  assert (Hsigned :
            sint 24 (Z.shiftr (uint32_t w) 2) < 0
            <-> Z.testbit (uint32_t w) 25 = true).
  { rewrite sint_24.
    pose proof (li_bits_range (uint32_t w)) as Hq.
    assert (Hbit : Z.testbit (li_bits (uint32_t w)) 23
                   = Z.testbit (uint32_t w) 25).
    { unfold li_bits. rewrite Z.land_spec, Z.shiftr_spec by lia.
      change (23 + 2) with 25. rewrite Z.ones_spec_low by lia.
      apply Bool.andb_true_r. }
    rewrite <- Hbit. rewrite Z.testbit_true by lia.
    destruct (Z.ltb_spec (li_bits (uint32_t w)) (2 ^ 23)) as [Hlt | Hge].
    - rewrite Z.div_small by lia. split; [lia | discriminate].
    - assert (Hd : li_bits (uint32_t w) / 2 ^ 23 = 1).
      { symmetry.
        apply (Z.div_unique _ _ 1 (li_bits (uint32_t w) - 2 ^ 23)); lia. }
      rewrite Hd. split; [reflexivity | lia]. }
  split; [exact Hli |].
  split; [rewrite Hli, Z.mul_comm; apply Z.mod_mul; lia |].
  split; [rewrite Hli; lia |].
  split; [rewrite Hli; rewrite <- Hsigned; lia |].
  split; [reflexivity |].
  split; [exact Hbd |].
  split; [rewrite Hbd, Z.mul_comm; apply Z.mod_mul; lia |].
  rewrite Hbd. lia.
Qed.

End PowerPCFacts.

Module WDFacts.
Import Fixed WD.

(** Projections of updated records. *)
Ltac fields :=
  cbn [drive cycles state_ wait_six_index_pulses_next_state step_delay_count
       status_ track_ sector_ data_ data_shift_register_ command_
       has_command_ index_hole_count_ is_step_in_ interrupt_request_line_
       with_drive with_cycles with_state_
       with_wait_six_index_pulses_next_state with_step_delay_count
       with_status_ with_track_ with_sector_ with_data_
       with_data_shift_register_ with_command_ with_has_command_
       with_index_hole_count_ with_is_step_in_ with_interrupt_request_line_
       set_interrupt_request] in *.

Ltac finish :=
  repeat split; try assumption; try reflexivity; try tauto;
  try (unfold restore_quanta; lia).


Section Facts.
Context {D : Type} {drv : Drive D}.
Variable Flag : Flags.
Implicit Types s : WD1770 D.

Lemma with_index_hole_count_same s :
  with_index_hole_count_ (index_hole_count_ s) s = s.
Proof. destruct s; reflexivity. Qed.

Lemma process_index_hole_elsewhere s :
  state_ s <> WaitForSixIndexPulses ->
  process_index_hole s =
  with_index_hole_count_ (int32_t (index_hole_count_ s + 1)) s.
Proof.
  intros Hst. unfold process_index_hole. cbn.
  destruct (state_ s); try reflexivity. contradiction.
Qed.

Lemma deliver_elsewhere events : forall s,
  state_ s <> WaitForSixIndexPulses ->
  exists c, fold_left deliver events s = with_index_hole_count_ c s.
Proof.
  induction events as [| e events IH]; intros s Hst; cbn [fold_left].
  - exists (index_hole_count_ s). symmetry. apply with_index_hole_count_same.
  - destruct e as [v c |]; cbn [deliver process_input_bit].
    + apply IH, Hst.
    + rewrite process_index_hole_elsewhere by exact Hst.
      destruct (IH (with_index_hole_count_ (int32_t (index_hole_count_ s + 1)) s))
        as [c Hc]; [exact Hst |].
      exists c. rewrite Hc. reflexivity.
Qed.

Lemma advance_drive_elsewhere s :
  state_ s <> WaitForSixIndexPulses ->
  exists d c, advance_drive Flag s = with_index_hole_count_ c (with_drive d s).
Proof.
  intros Hst. unfold advance_drive.
  destruct (test (status_ s) (MotorOn Flag)).
  - destruct (drive_run_for_cycles 1 (drive s)) as [d' events].
    destruct (deliver_elsewhere events (with_drive d' s) Hst) as [c Hc].
    exists d', c. exact Hc.
  - exists (drive s), (index_hole_count_ s). destruct s; reflexivity.
Qed.

Lemma index_holes_succ (k : nat) s :
  index_holes (S k) s = process_index_hole (index_holes k s).
Proof. reflexivity. Qed.

Lemma sixth_index_hole s :
  state_ s = WaitForSixIndexPulses -> index_hole_count_ s = 5 ->
  state_ (process_index_hole s) = wait_six_index_pulses_next_state s.
Proof.
  intros Hst Hn. unfold process_index_hole.
  cbn [state_ with_state_ with_index_hole_count_ index_hole_count_
       wait_six_index_pulses_next_state].
  rewrite Hst, Hn. reflexivity.
Qed.

Lemma index_holes_waiting (k : nat) s :
  state_ s = WaitForSixIndexPulses -> index_hole_count_ s = 0 ->
  (k <= 5)%nat ->
  state_ (index_holes k s) = WaitForSixIndexPulses /\
  index_hole_count_ (index_holes k s) = Z.of_nat k /\
  wait_six_index_pulses_next_state (index_holes k s) =
  wait_six_index_pulses_next_state s.
Proof.
  intros Hst Hc. induction k as [| k IH]; intros Hk.
  - cbn. auto.
  - destruct IH as (Hs & Hn & Hnx); [lia |].
    cbn [index_holes]. remember (index_holes k s) as t eqn:Et. clear Et.
    unfold process_index_hole. cbn. rewrite Hs, Hn. cbn [State_beq andb].
    assert (Hi : int32_t (Z.of_nat k + 1) = Z.of_nat (S k)).
    { unfold int32_t, sint, uint. rewrite Z.mod_small by lia.
      destruct (Z.ltb_spec (Z.of_nat k + 1) (2 ^ (32 - 1))); lia. }
    rewrite Hi.
    destruct (Z.eqb_spec (Z.of_nat (S k)) 6) as [H6 | H6]; [lia |].
    cbn. auto.
Qed.


Lemma uint8_small x : 0 <= x <= 255 -> uint8_t x = x.
Proof. intros H. apply uint_small. lia. Qed.

Lemma uint32_small x : 0 <= x < 2 ^ 32 -> uint32_t x = x.
Proof. intros H. apply uint_small. exact H. Qed.

Lemma int32_small x : - 2 ^ 31 <= x < 2 ^ 31 -> int32_t x = x.
Proof.
  intros H. unfold int32_t, sint, uint.
  destruct (Z.ltb_spec (x mod 2 ^ 32) (2 ^ (32 - 1))) as [Hlt | Hge].
  - destruct (Z_lt_le_dec x 0) as [Hn | Hp].
    + replace x with (x + 1 * 2 ^ 32 - 2 ^ 32) in Hlt |- * by lia.
      exfalso. replace (x + 1 * 2 ^ 32 - 2 ^ 32) with (x + 2 ^ 32 + (-1) * 2 ^ 32) in Hlt by lia.
      rewrite Z.mod_add in Hlt by lia. rewrite Z.mod_small in Hlt by lia. lia.
    + apply Z.mod_small. lia.
  - destruct (Z_lt_le_dec x 0) as [Hn | Hp].
    + replace x with (x + 2 ^ 32 + (-1) * 2 ^ 32) at 1 by lia.
      rewrite Z.mod_add by lia. rewrite Z.mod_small by lia. lia.
    + rewrite Z.mod_small in Hge by lia. lia.
Qed.

Lemma flag_cleared st m : Z.land (uint8_t (Z.land st (Z.lnot m))) m = 0.
Proof.
  unfold uint8_t, uint. rewrite <- Z.land_ones by lia. Z.bitblast.
Qed.

Lemma restore_command_bits r :
  0 <= r <= 3 ->
  test r 0x80 = false /\ test r 0x08 = false /\ test r 0x04 = false /\
  Z.shiftr r 4 = 0 /\ Z.shiftr r 5 = 0 /\ Z.land r 3 = r.
Proof.
  intros Hr.
  assert (Hcases : r = 0 \/ r = 1 \/ r = 2 \/ r = 3) by lia.
  destruct Hcases as [-> | [-> | [-> | ->]]]; repeat split; reflexivity.
Qed.

Lemma restoring_quantum r g s :
  0 <= r <= 3 -> restoring Flag r s ->
  exists s',
    quantum Flag g s = (g, s', Continue) /\ restoring Flag r s' /\
    restore_remaining r s' = Z.max 0 (restore_remaining r s - 1) /\
    cycles s' = uint32_t (cycles s - 8).
Proof.
  intros Hr [Hcmd Hinv].
  destruct (restore_command_bits r Hr) as (H80 & H08 & H04 & Hs4 & Hs5 & Hl3).
  assert (Hst : state_ (with_cycles (uint32_t (cycles s - 8)) s)
                <> WaitForSixIndexPulses).
  { fields. intros E. rewrite E in Hinv. exact Hinv. }
  destruct (advance_drive_elsewhere (with_cycles (uint32_t (cycles s - 8)) s) Hst)
    as (d' & c' & Hadv).
  unfold quantum. rewrite Hadv. clear Hadv Hst.
  unfold restoring, restore_remaining, completed in *.
  unfold dispatch. fields.
  destruct (state_ s) eqn:Est; try contradiction.
  - (* Waiting *)
    destruct (has_command_ s) eqn:Ehc.
    + rewrite Hcmd, H80.
      eexists; split; [reflexivity |]. fields. finish.
    + eexists; split; [reflexivity |]. fields. rewrite Est, Ehc.
      destruct Hinv as [Hinv | Hinv]; [discriminate |].
      finish.
  - (* BeginType1 *)
    rewrite Hcmd, H08.
    eexists; split; [reflexivity |]. fields. finish.
  - (* BeginType1PostSpin *)
    unfold post_spin_setup. fields. rewrite Hcmd, Hs4. fields.
    rewrite Hcmd, Hs5.
    cbn [Z.eqb].
    eexists; split; [reflexivity |]. fields. finish.
  - (* TestTrack *)
    destruct Hinv as (Hhc & Hd & Ht). rewrite Hd.
    destruct (Z.eqb_spec (track_ s) 0) as [E0 | E0].
    + eexists; split; [reflexivity |]. fields. finish.
    + eexists; split; [reflexivity |]. fields. finish.
  - (* TestDirection *)
    destruct Hinv as (Hhc & Hd & Ht & Hin). rewrite Hin.
    eexists; split; [reflexivity |]. fields.
    rewrite uint8_small by lia. finish.
  - (* TestHead *)
    destruct Hinv as (Hhc & Hd & Ht & Hin). rewrite Hin.
    rewrite Bool.andb_false_r.
    eexists; split; [reflexivity |]. fields. finish.
  - (* StepDelay *)
    destruct Hinv as (Hhc & Hd & Ht & Hc). rewrite Hcmd, Hl3, Hs5.
    cbn [Z.eqb].
    destruct (Z.eqb_spec (step_delay_count s) r) as [E | E]; fields;
      rewrite int32_small by lia;
      (eexists; split; [reflexivity |]); fields; rewrite ?Est; finish.
  - (* TestVerify *)
    destruct Hinv as (Hhc & Ht). rewrite Hcmd, H04.
    eexists; split; [reflexivity |]. fields. rewrite Hhc.
    finish.
    right. repeat split; try assumption. apply flag_cleared.
Qed.

Lemma restoring_completed r s :
  0 <= r <= 3 -> restoring Flag r s -> restore_remaining r s <= 0 ->
  completed Flag s.
Proof.
  intros Hr [Hcmd Hinv]. unfold restore_remaining, restore_quanta.
  destruct (state_ s) eqn:Est; try contradiction;
    try (intros Hle; exfalso; nia).
  destruct (has_command_ s) eqn:Ehc; intros Hle; [lia |].
  destruct Hinv as [Hinv | Hinv]; [discriminate | exact Hinv].
Qed.

Lemma restoring_run_loop r later g : forall fuel s,
  0 <= r <= 3 -> restoring Flag r s ->
  0 <= cycles s < 2 ^ 32 -> cycles s <= 8 * Z.of_nat fuel + 8 ->
  solvent r later s ->
  exists s',
    run_loop Flag fuel g s = (g, s') /\ restoring Flag r s' /\
    0 <= cycles s' <= 8 /\ solvent r later s'.
Proof.
  induction fuel as [| fuel IH]; intros s Hr Hres Hc Hfuel Hsol;
    cbn [run_loop]; destruct (Z.ltb_spec 8 (cycles s)) as [Hgt | Hle];
    try (exists s; split; [reflexivity |]; split; [assumption |];
         split; [lia | assumption]).
  destruct (restoring_quantum r g s Hr Hres) as (s1 & Hq & Hres1 & Hrem1 & Hc1).
  rewrite Hq. rewrite uint32_small in Hc1 by lia.
  apply IH; try assumption; try lia.
  unfold solvent in *. rewrite Hrem1, Hc1. lia.
Qed.

Lemma restoring_run_for_cycles r later g n s :
  0 <= r <= 3 -> restoring Flag r s -> 0 <= cycles s <= 8 -> tick_ok n ->
  solvent r (n + later) s ->
  exists s',
    run_for_cycles Flag n g s = (g, s') /\ restoring Flag r s' /\
    0 <= cycles s' <= 8 /\ solvent r later s'.
Proof.
  intros Hr Hres Hc [Hn0 Hn] Hsol. unfold run_for_cycles.
  fields. rewrite uint32_small by lia.
  apply restoring_run_loop; try assumption.
  - fields. lia.
  - fields. rewrite Z2Nat.id by (apply Z.div_pos; lia).
    pose proof (Z.mul_div_le (cycles s + n) 8 ltac:(lia)).
    pose proof (Z.mod_pos_bound (cycles s + n) 8 ltac:(lia)).
    pose proof (Z.div_mod (cycles s + n) 8 ltac:(lia)). lia.
  - unfold solvent in *. unfold restore_remaining in *. fields. lia.
Qed.

Lemma restoring_run_ticks r g : forall ns s,
  0 <= r <= 3 -> restoring Flag r s -> 0 <= cycles s <= 8 ->
  Forall tick_ok ns -> solvent r (total_cycles ns) s ->
  exists s',
    run_ticks Flag ns g s = (g, s') /\ restoring Flag r s' /\
    0 <= cycles s' <= 8 /\ solvent r 0 s'.
Proof.
  unfold run_ticks.
  induction ns as [| n ns IH]; intros s Hr Hres Hc Hok Hsol.
  - exists s. cbn. auto.
  - inversion Hok as [| ? ? Hn Hns]; subst.
    destruct (restoring_run_for_cycles r (total_cycles ns) g n s)
      as (s1 & Hrun & Hres1 & Hc1 & Hsol1); try assumption.
    cbn [fold_left fst snd]. rewrite Hrun. cbn [fst snd].
    apply IH; assumption.
Qed.

Lemma restore_by_ticks r g ns s :
  0 <= r <= 3 -> state_ s = Waiting -> 0 <= cycles s <= 8 ->
  Forall tick_ok ns -> 8 * restore_quanta r + 8 <= total_cycles ns ->
  exists s',
    run_ticks Flag ns g (set_register 0 r s) = (g, s') /\ completed Flag s' /\
    command_ s' = r.
Proof.
  intros Hr Hst Hc Hok Htot.
  assert (Hreg : set_register (D := D) 0 r s
                 = with_has_command_ true (with_command_ r s)).
  { unfold set_register. rewrite uint8_small by lia. reflexivity. }
  destruct (restoring_run_ticks r g ns (set_register 0 r s))
    as (s' & Hrun & Hres' & Hc' & Hsol'); try assumption.
  - rewrite Hreg. unfold restoring. fields. rewrite Hst. auto.
  - rewrite Hreg. right. unfold restore_remaining. fields. rewrite Hst. lia.
  - exists s'. split; [exact Hrun |]. split; [| apply Hres'].
    apply (restoring_completed r); try assumption.
    destruct Hsol' as [H0 | H8]; lia.
Qed.


(** *** The loop and the statics *)

Lemma deliver_keeps events : forall s,
  let s' := fold_left deliver events s in
  cycles s' = cycles s /\ drive s' = drive s /\ status_ s' = status_ s.
Proof.
  induction events as [| e events IH]; intros s; cbn [fold_left].
  - auto.
  - destruct (IH (deliver s e)) as (Hc & Hd & Hs). cbn zeta.
    rewrite Hc, Hd, Hs.
    destruct e; cbn [deliver process_input_bit]; auto.
    unfold process_index_hole.
    destruct (_ && _); fields; auto.
Qed.

Lemma advance_drive_cycles s : cycles (advance_drive Flag s) = cycles s.
Proof.
  unfold advance_drive. destruct (test _ _); [| reflexivity].
  destruct (drive_run_for_cycles 1 (drive s)) as [d' events].
  destruct (deliver_keeps events (with_drive d' s)) as (Hc & _).
  rewrite Hc. reflexivity.
Qed.

Lemma dispatch_cycles g s :
  cycles (snd (fst (dispatch Flag g s))) = cycles s.
Proof.
  unfold dispatch, post_spin_setup.
  destruct (state_ s); fields;
    repeat match goal with
           | |- context [if ?b then _ else _] => destruct b; fields
           | |- context [match ?z with 0 => _ | Zpos _ => _ | Zneg _ => _ end] =>
               destruct z; fields
           | |- context [match ?p with xH => _ | xO _ => _ | xI _ => _ end] =>
               destruct p; fields
           end; reflexivity.
Qed.

Lemma quantum_cycles g s :
  cycles (snd (fst (quantum Flag g s))) = uint32_t (cycles s - 8).
Proof.
  unfold quantum. rewrite dispatch_cycles, advance_drive_cycles. reflexivity.
Qed.

Lemma dispatch_unhandled g s :
  unhandled (state_ s) = true ->
  dispatch Flag g s = (after_default g (state_ s), s, Return).
Proof.
  unfold dispatch, after_default.
  destruct (state_ s); cbn [unhandled]; try discriminate; intros _;
    destruct (has_hit_error g); reflexivity.
Qed.

Lemma dispatch_flow g s :
  snd (dispatch Flag g s) = if unhandled (state_ s) then Return else Continue.
Proof.
  unfold dispatch.
  destruct (state_ s); cbn [unhandled];
    repeat match goal with
           | |- context [if ?b then _ else _] => destruct b
           end; reflexivity.
Qed.

Lemma dispatch_statics g s :
  fst (fst (dispatch Flag g s)) =
  if unhandled (state_ s) then after_default g (state_ s) else g.
Proof.
  unfold dispatch, after_default.
  destruct (state_ s); cbn [unhandled];
    repeat match goal with
           | |- context [if ?b then _ else _] => destruct b
           end; reflexivity.
Qed.

Lemma after_default_budget g st :
  (length (printed (after_default g st)) + budget (after_default g st)
   <= length (printed g) + budget g)%nat.
Proof.
  unfold after_default, budget. destruct g as [[|] p]; cbn.
  - lia.
  - rewrite length_app. cbn. lia.
Qed.

Lemma quantum_budget g s :
  (length (printed (fst (fst (quantum Flag g s))))
   + budget (fst (fst (quantum Flag g s)))
   <= length (printed g) + budget g)%nat.
Proof.
  unfold quantum. rewrite dispatch_statics.
  destruct (unhandled _); [apply after_default_budget | lia].
Qed.

Lemma run_loop_budget : forall fuel g s,
  (length (printed (fst (run_loop Flag fuel g s)))
   + budget (fst (run_loop Flag fuel g s))
   <= length (printed g) + budget g)%nat.
Proof.
  induction fuel as [| fuel IH]; intros g s; cbn [run_loop];
    destruct (8 <? cycles s); cbn [fst]; try lia.
  pose proof (quantum_budget g s) as Hq.
  destruct (quantum Flag g s) as [[g' s'] [|]]; cbn [fst] in *.
  - specialize (IH g' s'). lia.
  - exact Hq.
Qed.

Lemma run_calls_budget : forall calls g,
  (length (printed (run_calls Flag calls g)) + budget (run_calls Flag calls g)
   <= length (printed g) + budget g)%nat.
Proof.
  unfold run_calls.
  induction calls as [| c calls IH]; intros g; cbn [fold_left]; [lia |].
  etransitivity; [apply IH |]. unfold run_for_cycles. apply run_loop_budget.
Qed.

Lemma run_loop_quanta : forall fuel g s,
  run_loop Flag fuel g s = quanta Flag (passes Flag fuel g s) g s.
Proof.
  induction fuel as [| fuel IH]; intros g s; cbn [run_loop passes];
    destruct (8 <? cycles s); try reflexivity.
  destruct (quantum Flag g s) as [[g' s'] [|]] eqn:Eq; cbn [quanta];
    rewrite Eq; [apply IH | reflexivity].
Qed.

Lemma run_loop_conserves : forall fuel g s,
  0 <= cycles s < 2 ^ 32 ->
  cycles (snd (run_loop Flag fuel g s))
  + 8 * Z.of_nat (passes Flag fuel g s) = cycles s.
Proof.
  induction fuel as [| fuel IH]; intros g s Hc; cbn [run_loop passes];
    destruct (Z.ltb_spec 8 (cycles s)) as [Hgt | Hle]; cbn [snd]; try lia.
  pose proof (quantum_cycles g s) as Hq.
  rewrite uint32_small in Hq by lia.
  destruct (quantum Flag g s) as [[g' s'] [|]]; cbn [fst snd] in *.
  - specialize (IH g' s' ltac:(lia)). lia.
  - lia.
Qed.

Lemma run_loop_finishes : forall fuel g s,
  0 <= cycles s < 2 ^ 32 -> cycles s <= 8 * Z.of_nat fuel + 8 ->
  cycles (snd (run_loop Flag fuel g s)) <= 8 \/
  unhandled (state_ (snd (run_loop Flag fuel g s))) = true.
Proof.
  induction fuel as [| fuel IH]; intros g s Hc Hf; cbn [run_loop];
    destruct (Z.ltb_spec 8 (cycles s)) as [Hgt | Hle]; cbn [snd]; try lia.
  pose proof (quantum_cycles g s) as Hq.
  rewrite uint32_small in Hq by lia.
  pose proof (dispatch_flow g
    (advance_drive Flag (with_cycles (uint32_t (cycles s - 8)) s))) as Hfl.
  fold (quantum Flag g s) in Hfl.
  destruct (quantum Flag g s) as [[g' s'] [|]] eqn:Eq; cbn [fst snd] in *.
  - apply IH; lia.
  - right. unfold quantum in Eq.
    destruct (unhandled (state_ (advance_drive Flag
                (with_cycles (uint32_t (cycles s - 8)) s)))) eqn:Eu;
      [| discriminate].
    rewrite dispatch_unhandled in Eq by exact Eu.
    injection Eq as _ Es. subst s'. exact Eu.
Qed.

Lemma fuel_suffices c :
  0 <= c -> c <= 8 * Z.of_nat (Z.to_nat (c / 8)) + 8.
Proof.
  intros Hc. rewrite Z2Nat.id by (apply Z.div_pos; lia).
  pose proof (Z.mod_pos_bound c 8 ltac:(lia)).
  pose proof (Z.div_mod c 8 ltac:(lia)). lia.
Qed.

End Facts.

Section Recording.
Context {D : Type} {drv : Drive D}.
Variable Flag : Flags.
Implicit Types s : WD1770 (D * list DriveCall).

Lemma deliver_drive events : forall s,
  drive (fold_left deliver events s) = drive s.
Proof. intros s. apply (deliver_keeps events s). Qed.

Lemma dispatch_advances g s :
  advances (drive (snd (fst (dispatch Flag g s)))) = advances (drive s).
Proof.
  unfold dispatch, post_spin_setup.
  destruct (state_ s); fields;
    repeat match goal with
           | |- context [if ?b then _ else _] => destruct b; fields
           | |- context [match ?z with 0 => _ | Zpos _ => _ | Zneg _ => _ end] =>
               destruct z; fields
           | |- context [match ?p with xH => _ | xO _ => _ | xI _ => _ end] =>
               destruct p; fields
           end; try reflexivity;
    unfold advances; cbn [step recording snd fst]; fields; cbn [snd];
    rewrite flat_map_app; cbn [flat_map app]; apply app_nil_r.
Qed.

Lemma advance_drive_advances s :
  advances (drive (advance_drive Flag s)) =
  advances (drive s) ++ (if test (status_ s) (MotorOn Flag) then [1] else []).
Proof.
  unfold advance_drive.
  destruct (test _ _); [| symmetry; apply app_nil_r].
  cbn [drive_run_for_cycles recording].
  destruct (drive_run_for_cycles 1 (fst (drive s))) as [d' events].
  rewrite deliver_drive. fields. unfold advances. cbn [snd].
  rewrite flat_map_app. reflexivity.
Qed.

End Recording.

Section Facts2.
Context {D : Type} {drv : Drive D}.
Variable Flag : Flags.
Implicit Types s : WD1770 D.

Lemma quantum_unhandled g s :
  unhandled (state_ s) = true -> 8 < cycles s < 2 ^ 32 ->
  quantum Flag g s =
  (after_default g (state_ s),
   advance_drive Flag (with_cycles (cycles s - 8) s), Return) /\
  exists d c,
    advance_drive Flag (with_cycles (cycles s - 8) s)
    = with_index_hole_count_ c (with_drive d (with_cycles (cycles s - 8) s)).
Proof.
  intros Hu Hc.
  assert (Hst : state_ (with_cycles (cycles s - 8) s) <> WaitForSixIndexPulses).
  { fields. intros E. rewrite E in Hu. discriminate. }
  destruct (advance_drive_elsewhere Flag _ Hst) as (d & c & Hadv).
  split; [| exists d, c; exact Hadv].
  unfold quantum. rewrite uint32_small by lia.
  rewrite dispatch_unhandled; rewrite Hadv; fields; [reflexivity | exact Hu].
Qed.

Lemma run_for_cycles_unhandled g s n :
  unhandled (state_ s) = true -> 0 <= cycles s -> 0 <= n ->
  8 < cycles s + n < 2 ^ 32 ->
  run_for_cycles Flag n g s =
  (after_default g (state_ s),
   advance_drive Flag (with_cycles (cycles s + n - 8) s)).
Proof.
  intros Hu Hc Hn Hsum. unfold run_for_cycles. fields.
  rewrite uint32_small by lia.
  destruct (Z.to_nat ((cycles s + n) / 8)) as [| fuel] eqn:Ef.
  - exfalso. pose proof (fuel_suffices (cycles s + n) ltac:(lia)) as Hf.
    rewrite Ef in Hf. lia.
  - cbn [run_loop]. fields.
    destruct (Z.ltb_spec 8 (cycles s + n)) as [_ | Hle]; [| lia].
    destruct (quantum_unhandled g (with_cycles (cycles s + n) s)) as [Hq _];
      [exact Hu | fields; lia |].
    rewrite Hq. reflexivity.
Qed.

Lemma after_default_again g st :
  has_hit_error g = true -> after_default g st = g.
Proof. destruct g as [h p]. cbn. intros ->. reflexivity. Qed.

Lemma run_loop_silent : forall fuel g s,
  has_hit_error g = true -> fst (run_loop Flag fuel g s) = g.
Proof.
  induction fuel as [| fuel IH]; intros g s Hg; cbn [run_loop];
    destruct (8 <? cycles s); try reflexivity.
  pose proof (dispatch_statics Flag g
    (advance_drive Flag (with_cycles (uint32_t (cycles s - 8)) s))) as Hd.
  fold (quantum Flag g s) in Hd.
  rewrite after_default_again in Hd by exact Hg.
  assert (Hg' : fst (fst (quantum Flag g s)) = g).
  { rewrite Hd. destruct (unhandled _); reflexivity. }
  clear Hd.
  destruct (quantum Flag g s) as [[g' s'] [|]]; cbn [fst] in Hg' |- *;
    rewrite Hg'.
  - apply IH, Hg.
  - reflexivity.
Qed.

Lemma run_calls_silent : forall calls g,
  has_hit_error g = true -> run_calls Flag calls g = g.
Proof.
  unfold run_calls.
  induction calls as [| c calls IH]; intros g Hg; cbn [fold_left];
    [reflexivity |].
  unfold run_for_cycles. rewrite run_loop_silent by exact Hg.
  apply IH, Hg.
Qed.

Lemma begin_type1_dispatch g s :
  state_ s = BeginType1 ->
  let status' :=
    uint8_t (Z.land (uint8_t (Z.lor (status_ s) (Busy Flag)))
               (Z.lnot (Z.lor (DataRequest Flag) (CRCError Flag)))) in
  let s' := with_interrupt_request_line_ false (with_status_ status' s) in
  dispatch Flag g s =
  (g,
   if test (command_ s) 0x08
   then with_state_ WaitForSixIndexPulses
          (with_index_hole_count_ 0
             (with_wait_six_index_pulses_next_state BeginType1PostSpin
                (with_state_ BeginType1PostSpin s')))
   else with_state_ BeginType1PostSpin s',
   Continue).
Proof.
  intros Hst. unfold dispatch. rewrite Hst. fields.
  destruct (test (command_ s) 8); reflexivity.
Qed.

End Facts2.

(** ** The claims about the controller *)

Section ControllerClaims.
Context {D : Type} {drv : Drive D}.
Variable Flag : Flags.

(** Claim C1. In [WaitForSixIndexPulses] with the index-pulse counter at
    zero, six [process_index_hole] notifications move the controller to
    the recorded next state, while any five or fewer leave it waiting.
    Every notification increments the counter (an [int]) whatever the
    state is; outside the wait nothing but the counter changes, and the
    [WaitForSixIndexPulses] case of the [switch] leaves both the state and
    the counter alone. *)
Theorem six_index_pulses (s : WD1770 D) :
  state_ s = WaitForSixIndexPulses -> index_hole_count_ s = 0 ->
  state_ (index_holes 6 s) = wait_six_index_pulses_next_state s /\
  (forall k, (k <= 5)%nat ->
     state_ (index_holes k s) = WaitForSixIndexPulses) /\
  (forall t : WD1770 D,
     index_hole_count_ (process_index_hole t)
     = int32_t (index_hole_count_ t + 1)) /\
  (forall t : WD1770 D,
     - 2 ^ 31 <= index_hole_count_ t < 2 ^ 31 - 1 ->
     index_hole_count_ (process_index_hole t) = index_hole_count_ t + 1) /\
  (forall t : WD1770 D,
     state_ t <> WaitForSixIndexPulses ->
     process_index_hole t
     = with_index_hole_count_ (int32_t (index_hole_count_ t + 1)) t) /\
  (forall g (t : WD1770 D),
     state_ t = WaitForSixIndexPulses ->
     dispatch Flag g t
     = (g, with_status_ (uint8_t (Z.lor (status_ t) (MotorOn Flag))) t,
        Continue)).
Proof.
  intros Hst Hc.
  assert (Hcount : forall t : WD1770 D,
            index_hole_count_ (process_index_hole t)
            = int32_t (index_hole_count_ t + 1)).
  { intros t. unfold process_index_hole. fields.
    destruct (_ && _); reflexivity. }
  split; [| split; [| split; [| split; [| split]]]].
  - destruct (index_holes_waiting 5 s Hst Hc ltac:(lia)) as (H5 & Hn & Hnx).
    rewrite (index_holes_succ 5 s).
    rewrite sixth_index_hole by assumption. exact Hnx.
  - intros k Hk. apply (index_holes_waiting k s Hst Hc Hk).
  - exact Hcount.
  - intros t Ht. rewrite Hcount. apply int32_small. lia.
  - intros t Ht. apply process_index_hole_elsewhere, Ht.
  - intros g t Ht. unfold dispatch. rewrite Ht. reflexivity.
Qed.

(** Claim C2. From [Waiting], whatever the track register holds, writing
    a restore command [r] (0x00, or 0x01 to 0x03 for the other step
    rates; no verify) and then ticking drives the track register to 0 and
    brings the controller back to [Waiting] with the interrupt request
    raised and [Busy] clear. It has got there once the ticks have
    supplied the cycles of [restore_quanta r = 255 * (r + 4) + 5] loop
    passes and one more pass, a bound in the step-delay count [r] alone. *)
Theorem restore_completes (r : Z) (g : Statics) (ns : list Z) (s : WD1770 D) :
  0 <= r <= 3 -> state_ s = Waiting -> 0 <= cycles s <= 8 ->
  Forall tick_ok ns -> 8 * restore_quanta r + 8 <= total_cycles ns ->
  let result := run_ticks Flag ns g (set_register 0 r s) in
  fst result = g /\
  state_ (snd result) = Waiting /\
  has_command_ (snd result) = false /\
  track_ (snd result) = 0 /\
  interrupt_request_line_ (snd result) = true /\
  Z.land (status_ (snd result)) (Busy Flag) = 0.
Proof.
  intros Hr Hst Hc Hok Htot.
  destruct (restore_by_ticks Flag r g ns s Hr Hst Hc Hok Htot)
    as (s' & Hrun & Hdone & _).
  cbn zeta. rewrite Hrun. cbn [fst snd]. split; [reflexivity | exact Hdone].
Qed.

(** Claim C4, as amended. On a fresh controller with the track and data
    registers preset to 5, writing 0x03 to register 0 and ticking long
    enough leaves the controller in [Waiting] with [Busy] clear and the
    track register at 0: 0x03 is a restore at step rate 3, which sets the
    track register to 0xff and the data register to 0 and steps until
    [TestTrack] finds the two equal. *)
Theorem command_03_restores (g : Statics) (ns : list Z) (u : WD1770 D) :
  0 <= cycles u <= 8 -> Forall tick_ok ns ->
  8 * restore_quanta 3 + 8 <= total_cycles ns ->
  let result := run_ticks Flag ns g (set_register 0 0x03 (preset_to_5 u)) in
  state_ (snd result) = Waiting /\
  Z.land (status_ (snd result)) (Busy Flag) = 0 /\
  track_ (snd result) = 0.
Proof.
  intros Hc Hok Htot.
  destruct (restore_by_ticks Flag 3 g ns (preset_to_5 u))
    as (s' & Hrun & Hdone & _); try assumption; try lia; try reflexivity.
  cbn zeta. rewrite Hrun. cbn [snd]. unfold completed in Hdone. tauto.
Qed.

(** Claim C6. When the [switch] meets a state it has no case for, the
    [default] case prints only if [has_hit_error] was clear, sets it, and
    returns with the controller untouched. The call ends there: of the
    [cycles s + n] cycles at hand one pass's 8 are taken, the drive
    advance of that pass changes at most the drive and the index-hole
    counter (and nothing when the motor is off), and every other member
    is as it was. Over any sequence of calls on any controllers the
    diagnostic is printed at most once, and never once the flag is set. *)
Theorem unhandled_state_halts (g : Statics) (s : WD1770 D) (n : Z) :
  unhandled (state_ s) = true -> 0 <= cycles s -> 0 <= n ->
  8 < cycles s + n < 2 ^ 32 ->
  dispatch Flag g s = (after_default g (state_ s), s, Return) /\
  run_for_cycles Flag n g s
  = (after_default g (state_ s),
     advance_drive Flag (with_cycles (cycles s + n - 8) s)) /\
  (exists d c,
     advance_drive Flag (with_cycles (cycles s + n - 8) s)
     = with_index_hole_count_ c
         (with_drive d (with_cycles (cycles s + n - 8) s))) /\
  (test (status_ s) (MotorOn Flag) = false ->
   run_for_cycles Flag n g s
   = (after_default g (state_ s), with_cycles (cycles s + n - 8) s)) /\
  (forall calls g0,
     (length (printed (run_calls Flag calls g0))
      <= length (printed g0) + 1)%nat /\
     (has_hit_error g0 = true ->
      printed (run_calls Flag calls g0) = printed g0)).
Proof.
  intros Hu Hc Hn Hsum.
  pose proof (run_for_cycles_unhandled Flag g s n Hu Hc Hn Hsum) as Hrun.
  split; [apply dispatch_unhandled, Hu |].
  split; [exact Hrun |].
  split; [| split].
  - apply advance_drive_elsewhere. fields. intros E. rewrite E in Hu.
    discriminate.
  - intros Hm. rewrite Hrun. unfold advance_drive. fields. rewrite Hm.
    reflexivity.
  - intros calls g0. split.
    + pose proof (run_calls_budget Flag calls g0) as Hb.
      unfold budget in Hb at 2. destruct (has_hit_error g0); lia.
    + intros Hg. rewrite run_calls_silent by exact Hg. reflexivity.
Qed.

(** Claim C8. One [run_for_cycles] makes a whole number [k] of loop
    passes, each taking exactly 8 of the accumulated cycles, so what is
    left plus [8 * k] is what was at hand; it stops with 8 or fewer left,
    or in an unhandled state; and with 8 or fewer at hand it makes no pass
    and changes only the accumulator. The 8 is the same for every
    controller. On a drive that records its calls, a pass asks the drive
    for one advance, of exactly one cycle, when [MotorOn] is set in the
    status the pass starts with, and for none when it is not: the lengths
    of the advances on record grow by [[1]] or not at all. *)
Theorem fixed_quantum_of_eight (g : Statics) (s : WD1770 D) (n : Z) :
  let at_hand := uint32_t (cycles s + n) in
  let result := run_for_cycles Flag n g s in
  let k := passes_of_call Flag n g s in
  result = quanta Flag k g (with_cycles at_hand s) /\
  cycles (snd result) + 8 * Z.of_nat k = at_hand /\
  (cycles (snd result) <= 8 \/ unhandled (state_ (snd result)) = true) /\
  (at_hand <= 8 <-> k = 0%nat) /\
  (k = 0%nat -> result = (g, with_cycles at_hand s)) /\
  (forall g' (t : WD1770 (D * list DriveCall)),
     advances (drive (snd (fst (quantum Flag g' t))))
     = advances (drive t)
       ++ (if test (status_ t) (MotorOn Flag) then [1] else [])).
Proof.
  cbn zeta. unfold run_for_cycles, passes_of_call. fields.
  set (s0 := with_cycles (uint32_t (cycles s + n)) s).
  pose proof (uint_range 32 (cycles s + n) ltac:(lia)) as Hr.
  fold uint32_t in Hr.
  assert (Hc0 : cycles s0 = uint32_t (cycles s + n)) by reflexivity.
  rewrite <- Hc0 in *.
  set (fuel := Z.to_nat (cycles s0 / 8)).
  pose proof (fuel_suffices (cycles s0) ltac:(lia)) as Hfuel. fold fuel in Hfuel.
  split; [apply run_loop_quanta |].
  split; [apply run_loop_conserves; lia |].
  split; [apply run_loop_finishes; lia |].
  split; [| split].
  - destruct fuel as [| fuel']; cbn [passes];
      destruct (Z.ltb_spec 8 (cycles s0)) as [Hgt | Hle]; try lia; try tauto.
    destruct (quantum Flag g s0) as [[g' s'] [|]]; split; intros H;
      try lia; discriminate.
  - rewrite run_loop_quanta. intros ->. reflexivity.
  - intros g' t. unfold quantum.
    rewrite dispatch_advances, advance_drive_advances. reflexivity.
Qed.

End ControllerClaims.


(** *** Instances *)

Lemma six_index_pulses_witness :
  state_ (index_holes 6 waiting_for_pulses) = BeginType1PostSpin /\
  state_ (index_holes 5 waiting_for_pulses) = WaitForSixIndexPulses.
Proof.
  destruct (six_index_pulses datasheet_flags waiting_for_pulses
              eq_refl eq_refl) as (H6 & H5 & _).
  split; [exact H6 | exact (H5 5%nat (le_n 5))].
Defined.

Lemma total_cycles_repeat n (k : nat) :
  total_cycles (repeat n k) = n * Z.of_nat k.
Proof.
  induction k as [| k IH]; [cbn; lia |].
  cbn [repeat total_cycles fold_right]. fold (total_cycles (repeat n k)).
  rewrite IH. lia.
Qed.

Lemma tick_ok_repeat n (k : nat) : tick_ok n -> Forall tick_ok (repeat n k).
Proof. intros Hn. induction k; cbn; constructor; assumption. Qed.

Lemma tick_ok_8 : tick_ok 8.
Proof. unfold tick_ok. lia. Qed.

Lemma restore_completes_witness :
  let result :=
    run_ticks datasheet_flags (repeat 8 1026) no_diagnostic
      (set_register 0 0x00 (with_track_ 5 fresh_controller)) in
  state_ (snd result) = Waiting /\
  track_ (snd result) = 0 /\
  interrupt_request_line_ (snd result) = true /\
  Z.land (status_ (snd result)) 0x01 = 0.
Proof.
  assert (Hok : Forall tick_ok (repeat 8 1026))
    by apply tick_ok_repeat, tick_ok_8.
  assert (Htot : 8 * restore_quanta 0 + 8 <= total_cycles (repeat 8 1026)).
  { rewrite total_cycles_repeat. unfold restore_quanta. lia. }
  destruct (restore_completes datasheet_flags 0 no_diagnostic (repeat 8 1026)
              (with_track_ 5 fresh_controller)
              ltac:(lia) eq_refl ltac:(cbn; lia) Hok Htot)
    as (_ & Hst & _ & Ht & Hi & Hb).
  cbn zeta. repeat split; assumption.
Defined.

Lemma command_03_restores_witness :
  let result :=
    run_ticks datasheet_flags (repeat 8 1791) no_diagnostic
      (set_register 0 0x03 (preset_to_5 fresh_controller)) in
  state_ (snd result) = Waiting /\
  Z.land (status_ (snd result)) 0x01 = 0 /\
  track_ (snd result) = 0.
Proof.
  assert (Hok : Forall tick_ok (repeat 8 1791))
    by apply tick_ok_repeat, tick_ok_8.
  assert (Htot : 8 * restore_quanta 3 + 8 <= total_cycles (repeat 8 1791)).
  { rewrite total_cycles_repeat. unfold restore_quanta. lia. }
  exact (command_03_restores datasheet_flags no_diagnostic (repeat 8 1791)
           fresh_controller ltac:(cbn; lia) Hok Htot).
Defined.

(** Claim C4, as stated, fails: on the drive and flags above the track
    register is 0, not 5, after every long enough run of ticks. *)
Lemma command_03_moves_the_track_register :
  ~ track_stays_at_5 datasheet_flags no_diagnostic fresh_controller.
Proof.
  intros [enough Hclaim].
  set (k := Z.to_nat (Z.max enough (restore_quanta 3 + 1))).
  assert (Hk : Z.of_nat k = Z.max enough (restore_quanta 3 + 1)).
  { unfold k. apply Z2Nat.id. unfold restore_quanta. lia. }
  assert (Hok : Forall tick_ok (repeat 8 k)) by apply tick_ok_repeat, tick_ok_8.
  assert (Htot : total_cycles (repeat 8 k) = 8 * Z.of_nat k)
    by apply total_cycles_repeat.
  specialize (Hclaim (repeat 8 k) Hok ltac:(lia)).
  destruct (restore_by_ticks datasheet_flags 3 no_diagnostic (repeat 8 k)
              (preset_to_5 fresh_controller))
    as (s' & Hrun & Hdone & _); try assumption; try reflexivity;
    try (cbn; lia); try lia.
  cbn zeta in Hclaim. rewrite Hrun in Hclaim. cbn [snd] in Hclaim.
  destruct Hclaim as (_ & _ & H5).
  destruct Hdone as (_ & _ & H0 & _). rewrite H0 in H5. discriminate.
Qed.

(** The same run, evaluated: 1790 passes after the write the controller
    is idle with the track register at 0 and the head 255 steps on. *)
Example command_03_trace :
  let result :=
    snd (run_for_cycles datasheet_flags 14328 no_diagnostic
           (set_register 0 0x03 (preset_to_5 fresh_controller))) in
  (state_ result, status_ result, track_ result, data_ result,
   head (drive result))
  = (Waiting, 0, 0, 0, 295).
Proof. vm_compute. reflexivity. Qed.

(** Claim C3, on the code. A Type 1 command accepted from [Waiting]
    reaches [BeginType1] one pass later and is past it after two. With
    bit 3 clear (0x00) the controller is then in [BeginType1PostSpin],
    [Busy] set, without having waited; with bit 3 set (0x08) it is in
    [WaitForSixIndexPulses] with [BeginType1PostSpin] recorded and the
    counter at 0. The Type 2 path does the opposite: 0x80 waits, 0x88
    does not. *)
Lemma type1_spin_up_is_inverted :
  let after cmd :=
    snd (run_for_cycles datasheet_flags 17 no_diagnostic
           (set_register 0 cmd
              (with_status_ 0x0a (with_index_hole_count_ 3 fresh_controller))))
  in
  (state_ (after 0x00), status_ (after 0x00)) = (BeginType1PostSpin, 0x01) /\
  (state_ (after 0x08), status_ (after 0x08),
   wait_six_index_pulses_next_state (after 0x08),
   index_hole_count_ (after 0x08))
  = (WaitForSixIndexPulses, 0x01, BeginType1PostSpin, 0) /\
  state_ (after 0x80) = WaitForSixIndexPulses /\
  state_ (after 0x88) = TestPause.
Proof. vm_compute. repeat split; reflexivity. Qed.

Lemma unhandled_state_halts_witness :
  run_for_cycles datasheet_flags 1000 no_diagnostic
    (with_state_ VerifyTrack fresh_controller)
  = (mkStatics true [VerifyTrack],
     with_cycles 992 (with_state_ VerifyTrack fresh_controller)) /\
  run_for_cycles datasheet_flags 1000 (mkStatics true [VerifyTrack])
    (with_state_ TestWrite fresh_controller)
  = (mkStatics true [VerifyTrack],
     with_cycles 992 (with_state_ TestWrite fresh_controller)).
Proof.
  split.
  - destruct (unhandled_state_halts datasheet_flags no_diagnostic
                (with_state_ VerifyTrack fresh_controller) 1000
                eq_refl ltac:(cbn; lia) ltac:(lia) ltac:(cbn; lia))
      as (_ & _ & _ & H & _).
    exact (H eq_refl).
  - destruct (unhandled_state_halts datasheet_flags
                (mkStatics true [VerifyTrack])
                (with_state_ TestWrite fresh_controller) 1000
                eq_refl ltac:(cbn; lia) ltac:(lia) ltac:(cbn; lia))
      as (_ & _ & _ & H & _).
    exact (H eq_refl).
Defined.

End WDFacts.

(** ** The Amiga machine *)

Module AmigaFacts.
Import Fixed Amiga.

Section Bus.
Context {Cpu MemoryMap Chipset Disks Name Request Map : Type}.
Context {hw : Hardware Cpu MemoryMap Chipset Disks Name Request Map}.
Implicit Types m : ConcreteMachine Cpu MemoryMap Chipset.

Lemma perform_bus_operation_decodes cycle m :
  InterruptAcknowledge (operation cycle) = false ->
  NewAddress (operation cycle) || SameAddress (operation cycle) = true ->
  perform_bus_operation cycle m
  = (decode cycle (fst (advance cycle m)), snd (advance cycle m)).
Proof.
  intros Hack Hadr. unfold perform_bus_operation.
  destruct (advance cycle m) as [m1 delay]. rewrite Hack, Hadr.
  cbn [negb fst snd]. destruct (decode cycle m1). reflexivity.
Qed.

Lemma decode_open_bus cycle m :
  SelectByte (operation cycle) || SelectWord (operation cycle) = true ->
  read_write_mask (memory_ m)
    (Z.shiftr (host_endian_byte_address cycle) 18) = 0 ->
  Z.land (host_endian_byte_address cycle) 0xe00000 <> 0xa00000 ->
  ~ (0xdff000 <= host_endian_byte_address cycle <= 0xdff1be) ->
  decode cycle m
  = (mkConcreteMachine (set_is_peripheral_address false (mc68000_ m))
       (memory_ m) (chipset_ m) (clock_rate m),
     if Read (operation cycle) then set_value16 0xffff cycle else cycle).
Proof.
  intros Hsel Hmask Hcia Hchip. unfold decode. cbn [memory_ chipset_ mc68000_].
  rewrite Hmask, Hsel. cbn [Z.eqb].
  destruct (Z.eqb_spec (Z.land (host_endian_byte_address cycle) 0xe00000)
              0xa00000) as [E | _]; [contradiction |].
  destruct (Z.leb_spec 0xdff000 (host_endian_byte_address cycle));
    destruct (Z.leb_spec (host_endian_byte_address cycle) 0xdff1be);
    cbn [andb]; try reflexivity.
  exfalso. apply Hchip. lia.
Qed.

(** Claim C5, as amended. Take a bus cycle that is not an interrupt
    acknowledge, exposes an address ([NewAddress] or [SameAddress]) and
    selects a byte or a word, whose address lies in a region without a
    read/write mask, off the CIA pattern and outside 0xdff000 to
    0xdff1be. [perform_bus_operation] returns the access delay and leaves
    memory and chipset as the chipset's own advance for the cycle left
    them: the address decoding writes to neither. A read gets the data
    value 0xffff; a write leaves the cycle as it came and is dropped. *)
Theorem open_bus cycle m :
  InterruptAcknowledge (operation cycle) = false ->
  NewAddress (operation cycle) || SameAddress (operation cycle) = true ->
  SelectByte (operation cycle) || SelectWord (operation cycle) = true ->
  let address := host_endian_byte_address cycle in
  let before := fst (advance cycle m) in
  read_write_mask (memory_ before) (Z.shiftr address 18) = 0 ->
  Z.land address 0xe00000 <> 0xa00000 ->
  ~ (0xdff000 <= address <= 0xdff1be) ->
  let result := perform_bus_operation cycle m in
  snd result = snd (advance cycle m) /\
  memory_ (fst (fst result)) = memory_ before /\
  chipset_ (fst (fst result)) = chipset_ before /\
  (Read (operation cycle) = true ->
   snd (fst result) = set_value16 0xffff cycle /\
   value (snd (fst result)) = 0xffff) /\
  (Read (operation cycle) = false -> snd (fst result) = cycle).
Proof.
  intros Hack Hadr Hsel address before Hmask Hcia Hchip. cbn zeta.
  rewrite perform_bus_operation_decodes by assumption.
  fold before. rewrite decode_open_bus by assumption.
  cbn [fst snd memory_ chipset_].
  split; [reflexivity |]. split; [reflexivity |]. split; [reflexivity |].
  split; intros Hr; rewrite Hr; [split |]; reflexivity.
Qed.

(** Claim C9. If the fetched ROMs fail [validate], construction throws
    [ROMMachine::Error::MissingROMs] and no machine is made. If they
    pass and hold the Kickstart ROM, construction completes, and the
    machine's memory is the fresh map with the ROM bytes packed into
    [kickstart] by [PackBigEndian16]. *)
Theorem construction_needs_the_kickstart_rom
    (target : Target Disks) (rom_fetcher : Request -> Map) :
  let request := Request_of AmigaA500Kickstart13 in
  let checked := validate request (rom_fetcher request) in
  (fst checked = false ->
   Machine_Amiga target rom_fetcher = Thrown MissingROMs) /\
  (fst checked = true ->
   forall rom, find AmigaA500Kickstart13 (snd checked) = Some rom ->
   exists machine,
     Machine_Amiga target rom_fetcher = Constructed machine /\
     memory_ machine = PackBigEndian16_kickstart rom MemoryMap_new /\
     clock_rate machine = PALClockRate).
Proof.
  cbn zeta. unfold Machine_Amiga, ConcreteMachine_new.
  destruct (validate (Request_of AmigaA500Kickstart13)
              (rom_fetcher (Request_of AmigaA500Kickstart13)))
    as [valid roms].
  cbn [fst snd]. split.
  - intros ->. reflexivity.
  - intros -> rom Hrom. rewrite Hrom. cbn [negb].
    eexists. split; [reflexivity |].
    unfold insert_media. cbn [chipset_ mc68000_ memory_ clock_rate].
    destruct (insert _ _). cbn. split; reflexivity.
Qed.

End Bus.

(** *** Instances on the bare machine *)

Lemma open_bus_witness :
  value (snd (fst (perform_bus_operation word_read bare_machine))) = 0xffff.
Proof.
  destruct (open_bus (hw := bare) word_read bare_machine eq_refl eq_refl
              eq_refl eq_refl ltac:(cbn; discriminate) ltac:(cbn; lia))
    as (_ & _ & _ & Hread & _).
  exact (proj2 (Hread eq_refl)).
Defined.

(** Claim C5, as stated, fails: an interrupt-acknowledge read with a
    word select at the unmapped address 0xe00000 returns before the
    address is decoded, and its data value stays 0x1234. *)
Lemma acknowledge_is_not_open_bus :
  ~ every_unmapped_read_is_open_bus (hw := bare).
Proof.
  intros Hclaim.
  destruct (Hclaim acknowledge_read bare_machine eq_refl eq_refl eq_refl
              ltac:(cbn; discriminate) ltac:(cbn; lia)) as [Hv _].
  vm_compute in Hv. discriminate.
Qed.

Lemma construction_witness :
  Machine_Amiga (hw := bare) (mkTarget unit (mkMedia unit tt)) (fun _ => None)
  = Thrown MissingROMs /\
  exists machine,
    Machine_Amiga (hw := bare) (mkTarget unit (mkMedia unit tt))
      (fun _ => Some [0x11; 0x14])
    = Constructed machine.
Proof.
  destruct (construction_needs_the_kickstart_rom (hw := bare)
              (mkTarget unit (mkMedia unit tt)) (fun _ => None))
    as [Hthrown _].
  destruct (construction_needs_the_kickstart_rom (hw := bare)
              (mkTarget unit (mkMedia unit tt)) (fun _ => Some [0x11; 0x14]))
    as [_ Hbuilt].
  split; [exact (Hthrown eq_refl) |].
  destruct (Hbuilt eq_refl [0x11; 0x14] eq_refl) as (machine & Hm & _).
  exists machine. exact Hm.
Defined.

End AmigaFacts.

(** ** More on the controller: what a host can rely on *)

Module WDMore.
Import Fixed WD WDFacts.

Section Keeping.
Context {D : Type} {drv : Drive D}.
Variable Flag : Flags.
Implicit Types s : WD1770 D.

(** A property of the controller that neither the accumulator, nor the
    drive, nor an index pulse, nor a pass of the [switch] destroys. *)
Variable P : WD1770 D -> Prop.
Hypothesis P_cycles : forall c s, P s -> P (with_cycles c s).
Hypothesis P_drive : forall d s, P s -> P (with_drive d s).
Hypothesis P_pulse : forall s, P s -> P (process_index_hole s).
Hypothesis P_dispatch : forall g s, P s -> P (snd (fst (dispatch Flag g s))).

Lemma deliver_keeps_it events : forall s,
  P s -> P (fold_left deliver events s).
Proof.
  induction events as [| e events IH]; intros s Hs; cbn [fold_left];
    [exact Hs |].
  apply IH. destruct e; cbn [deliver process_input_bit]; auto.
Qed.

Lemma advance_drive_keeps_it s : P s -> P (advance_drive Flag s).
Proof.
  intros Hs. unfold advance_drive. destruct (test _ _); [| exact Hs].
  destruct (drive_run_for_cycles 1 (drive s)) as [d' events].
  apply deliver_keeps_it, P_drive, Hs.
Qed.

Lemma quantum_keeps_it g s : P s -> P (snd (fst (quantum Flag g s))).
Proof.
  intros Hs. unfold quantum.
  apply P_dispatch, advance_drive_keeps_it, P_cycles, Hs.
Qed.

Lemma run_loop_keeps_it : forall fuel g s,
  P s -> P (snd (run_loop Flag fuel g s)).
Proof.
  induction fuel as [| fuel IH]; intros g s Hs; cbn [run_loop];
    destruct (8 <? cycles s); try exact Hs.
  pose proof (quantum_keeps_it g s Hs) as Hq.
  destruct (quantum Flag g s) as [[g' s'] [|]]; cbn [fst snd] in *.
  - apply IH, Hq.
  - exact Hq.
Qed.

Lemma run_for_cycles_keeps_it n g s :
  P s -> P (snd (run_for_cycles Flag n g s)).
Proof.
  intros Hs. unfold run_for_cycles. apply run_loop_keeps_it, P_cycles, Hs.
Qed.

Lemma run_ticks_keeps_it : forall ns g s,
  P s -> P (snd (run_ticks Flag ns g s)).
Proof.
  unfold run_ticks.
  induction ns as [| n ns IH]; intros g s Hs; cbn [fold_left fst snd];
    [exact Hs |].
  pose proof (run_for_cycles_keeps_it n g s Hs) as Hn.
  destruct (run_for_cycles Flag n g s) as [g' s']. apply IH, Hn.
Qed.

Hypothesis P_write : forall a v s, P s -> P (set_register a v s).

Lemma run_host_keeps_it : forall ops g s,
  P s -> P (snd (run_host Flag ops g s)).
Proof.
  unfold run_host.
  induction ops as [| op ops IH]; intros g s Hs; cbn [fold_left fst snd];
    [exact Hs |].
  assert (Hop : P (snd (host_step Flag (g, s) op))).
  { destruct op as [a v | n]; cbn [host_step fst snd].
    - apply P_write, Hs.
    - apply run_for_cycles_keeps_it, Hs. }
  destruct (host_step Flag (g, s) op) as [g' s']. apply IH, Hop.
Qed.

End Keeping.

Section Progress.
Context {D : Type} {drv : Drive D}.
Variable Flag : Flags.
Implicit Types s : WD1770 D.

(** A path through the state machine: every pass continues, stays on the
    path and brings the end at least one pass nearer. *)
Variable On : WD1770 D -> Prop.
Variable left : WD1770 D -> Z.
Hypothesis On_cycles : forall c s, On s -> On (with_cycles c s).
Hypothesis left_cycles : forall c s, left (with_cycles c s) = left s.
Hypothesis pass : forall g s,
  On s ->
  exists s',
    quantum Flag g s = (g, s', Continue) /\ On s' /\
    left s' <= Z.max 0 (left s - 1) /\ cycles s' = uint32_t (cycles s - 8).

Definition afloat (later : Z) s : Prop :=
  left s <= 0 \/ 8 * left s + 8 <= cycles s + later.

Lemma path_run_loop later g : forall fuel s,
  On s -> 0 <= cycles s < 2 ^ 32 -> cycles s <= 8 * Z.of_nat fuel + 8 ->
  afloat later s ->
  exists s',
    run_loop Flag fuel g s = (g, s') /\ On s' /\
    0 <= cycles s' <= 8 /\ afloat later s'.
Proof.
  induction fuel as [| fuel IH]; intros s Hon Hc Hfuel Hsol;
    cbn [run_loop]; destruct (Z.ltb_spec 8 (cycles s)) as [Hgt | Hle];
    try (exists s; split; [reflexivity |]; split; [assumption |];
         split; [lia | assumption]).
  destruct (pass g s Hon) as (s1 & Hq & Hon1 & Hleft1 & Hc1).
  rewrite Hq. rewrite uint32_small in Hc1 by lia.
  apply IH; try assumption; try lia.
  unfold afloat in *. rewrite Hc1. lia.
Qed.

Lemma path_run_for_cycles later g n s :
  On s -> 0 <= cycles s <= 8 -> tick_ok n -> afloat (n + later) s ->
  exists s',
    run_for_cycles Flag n g s = (g, s') /\ On s' /\
    0 <= cycles s' <= 8 /\ afloat later s'.
Proof.
  intros Hon Hc [Hn0 Hn] Hsol. unfold run_for_cycles.
  fields. rewrite uint32_small by lia.
  apply path_run_loop.
  - apply On_cycles, Hon.
  - fields. lia.
  - fields. apply fuel_suffices. lia.
  - unfold afloat in *. rewrite left_cycles. fields. lia.
Qed.

Lemma path_run_ticks g : forall ns s,
  On s -> 0 <= cycles s <= 8 -> Forall tick_ok ns ->
  8 * left s + 8 <= total_cycles ns ->
  exists s', run_ticks Flag ns g s = (g, s') /\ On s' /\ left s' <= 0.
Proof.
  intros ns s Hon Hc Hok Htot.
  assert (Hgen : forall ns s,
            On s -> 0 <= cycles s <= 8 -> Forall tick_ok ns ->
            afloat (total_cycles ns) s ->
            exists s',
              run_ticks Flag ns g s = (g, s') /\ On s' /\
              0 <= cycles s' <= 8 /\ afloat 0 s').
  { clear ns s Hon Hc Hok Htot. unfold run_ticks.
    induction ns as [| n ns IH]; intros s Hon Hc Hok Hsol.
    - exists s. cbn. auto.
    - inversion Hok as [| ? ? Hn Hns]; subst.
      destruct (path_run_for_cycles (total_cycles ns) g n s)
        as (s1 & Hrun & Hon1 & Hc1 & Hsol1); try assumption.
      cbn [fold_left fst snd]. rewrite Hrun. cbn [fst snd].
      apply IH; assumption. }
  destruct (Hgen ns s Hon Hc Hok) as (s' & Hrun & Hon' & Hc' & Hsol').
  - right. lia.
  - exists s'. split; [exact Hrun |]. split; [exact Hon' |].
    destruct Hsol' as [H0 | H8]; lia.
Qed.

End Progress.


Section Host.
Context {D : Type} {drv : Drive D}.
Variable Flag : Flags.
Implicit Types s : WD1770 D.

Lemma land_3_cases a :
  Z.land a 3 = 0 \/ Z.land a 3 = 1 \/ Z.land a 3 = 2 \/ Z.land a 3 = 3.
Proof.
  change (Z.land a 3) with (Z.land a (Z.ones 2)).
  rewrite Z.land_ones by lia.
  pose proof (Z.mod_pos_bound a (2 ^ 2) ltac:(lia)). lia.
Qed.

(** Property X1. The register file. A write to address 1, 2 or 3 (modulo 4) is read
    back, as a byte, from the same address; it leaves every other address
    reading as before. A write to address 0 changes no readable register:
    address 0 reads the status, not the command. Only the low two address
    bits count, and no write moves the state machine. *)
Theorem register_file (a v : Z) s :
  (Z.land a 3 <> 0 -> get_register a (set_register a v s) = uint8_t v) /\
  (Z.land a 3 = 0 ->
   forall b, get_register b (set_register a v s) = get_register b s) /\
  (forall b, Z.land b 3 <> Z.land a 3 ->
     get_register b (set_register a v s) = get_register b s) /\
  (forall b, Z.land b 3 = Z.land a 3 ->
     set_register b v s = set_register a v s /\
     get_register b s = get_register a s) /\
  state_ (set_register a v s) = state_ s /\
  status_ (set_register a v s) = status_ s.
Proof.
  unfold set_register, get_register.
  split; [| split; [| split; [| split; [| split]]]].
  - intros Ha. destruct (land_3_cases a) as [E | [E | [E | E]]];
      rewrite E in *; [contradiction | reflexivity ..].
  - intros Ha b. rewrite Ha.
    destruct (land_3_cases b) as [E | [E | [E | E]]]; rewrite E; reflexivity.
  - intros b Hb.
    destruct (land_3_cases a) as [Ea | [Ea | [Ea | Ea]]]; rewrite Ea in *;
      destruct (land_3_cases b) as [Eb | [Eb | [Eb | Eb]]]; rewrite Eb in *;
      try contradiction; reflexivity.
  - intros b Hb. rewrite Hb. split; reflexivity.
  - destruct (land_3_cases a) as [E | [E | [E | E]]]; rewrite E; reflexivity.
  - destruct (land_3_cases a) as [E | [E | [E | E]]]; rewrite E; reflexivity.
Qed.

Lemma process_index_hole_registers s :
  state_ s <> WaitForSixIndexPulses ->
  registers (process_index_hole s) = registers s.
Proof.
  intros Hst. rewrite process_index_hole_elsewhere by exact Hst. reflexivity.
Qed.

(** Property X2. An idle controller stays as it is. In [Waiting] with no command
    pending, no amount of ticking changes the state, a register, the
    status or the interrupt line. *)
Theorem idle_is_stable (ns : list Z) (g : Statics) s :
  state_ s = Waiting -> has_command_ s = false ->
  registers (snd (run_ticks Flag ns g s)) = registers s.
Proof.
  intros Hst Hhc.
  set (P := fun t : WD1770 D =>
              state_ t = Waiting /\ has_command_ t = false /\
              registers t = registers s).
  assert (HP : P (snd (run_ticks Flag ns g s))).
  { apply run_ticks_keeps_it; unfold P.
    - intros c t H. exact H.
    - intros d t H. exact H.
    - intros t (H1 & H2 & H3).
      rewrite process_index_hole_elsewhere by (rewrite H1; discriminate).
      auto.
    - intros g' t (H1 & H2 & H3). unfold dispatch. rewrite H1, H2.
      cbn [fst snd]. auto.
    - auto. }
  apply HP.
Qed.

(** Property X3. A state without a case is final. Once the controller is in
    [BeginType3], [VerifyTrack] or [TestWrite], no ticking changes its
    state, registers, status or interrupt line, and no sequence of
    register writes and ticks changes its state, status or interrupt
    line. *)
Theorem unhandled_state_is_final s :
  unhandled (state_ s) = true ->
  (forall ns g, registers (snd (run_ticks Flag ns g s)) = registers s) /\
  (forall ops g,
     let s' := snd (run_host Flag ops g s) in
     state_ s' = state_ s /\ status_ s' = status_ s /\
     interrupt_request_line_ s' = interrupt_request_line_ s).
Proof.
  intros Hu.
  assert (Hnw : state_ s <> WaitForSixIndexPulses).
  { intros E. rewrite E in Hu. discriminate. }
  split.
  - intros ns g.
    set (P := fun t : WD1770 D => registers t = registers s).
    apply (run_ticks_keeps_it Flag P); unfold P; try reflexivity.
    + intros c t H. exact H.
    + intros d t H. exact H.
    + intros t H. rewrite process_index_hole_registers; [exact H |].
      injection H as H. rewrite H. exact Hnw.
    + intros g' t H. rewrite dispatch_unhandled; [exact H |].
      injection H as H. rewrite H. exact Hu.
  - intros ops g.
    set (P := fun t : WD1770 D =>
                state_ t = state_ s /\ status_ t = status_ s /\
                interrupt_request_line_ t = interrupt_request_line_ s).
    apply (run_host_keeps_it Flag P); unfold P; try tauto.
    + intros t (H1 & H2 & H3).
      rewrite process_index_hole_elsewhere by (rewrite H1; exact Hnw). auto.
    + intros g' t (H1 & H2 & H3). rewrite dispatch_unhandled; [auto |].
      rewrite H1. exact Hu.
    + intros a v t (H1 & H2 & H3). unfold set_register.
      destruct (Z.land a 3) as [| [[|[]|]|[|[]|]|] |]; fields; auto.
Qed.

(** The cases of the [switch], one goal per outcome. *)
Ltac switch_cases :=
  unfold dispatch, post_spin_setup;
  match goal with
  | |- context [match state_ ?t with Waiting => _ | _ => _ end] =>
      destruct (state_ t) eqn:Est
  end;
  fields;
  repeat match goal with
         | |- context [if ?b then _ else _] => destruct b eqn:?; fields
         | |- context [match ?z with 0 => _ | Zpos _ => _ | Zneg _ => _ end] =>
             destruct z; fields
         | |- context [match ?p with xH => _ | xO _ => _ | xI _ => _ end] =>
             destruct p; fields
         end.

(** Property X4. Commands the state machine cannot finish. A pending command with
    bit 7 set (Type 2, 3 and 4) or with the verify flag, bit 2, set never
    completes: however long the host ticks, the controller is never idle
    again once it has taken the command, and the ticks never raise the
    interrupt. *)
Theorem unfinished_commands (ns : list Z) (g : Statics) s :
  state_ s = Waiting -> has_command_ s = true ->
  test (command_ s) 0x80 = true \/ test (command_ s) 0x04 = true ->
  let s' := snd (run_ticks Flag ns g s) in
  command_ s' = command_ s /\
  (interrupt_request_line_ s' = true -> interrupt_request_line_ s = true) /\
  (state_ s' = Waiting -> has_command_ s' = true).
Proof.
  intros Hst Hhc Hcmd.
  set (P := fun t : WD1770 D =>
              (beyond_type1 t \/ verifying t) /\ command_ t = command_ s /\
              (interrupt_request_line_ t = true ->
               interrupt_request_line_ s = true)).
  assert (HP : P (snd (run_ticks Flag ns g s))).
  { apply run_ticks_keeps_it; unfold P, beyond_type1, verifying.
    - intros c t H. exact H.
    - intros d t H. exact H.
    - intros t (Hpath & Hc & Hi). unfold process_index_hole. fields.
      destruct (state_ t) eqn:Et; cbn [State_beq andb]; fields;
        try (rewrite Et; tauto).
      destruct (_ =? 6); fields; [| rewrite Et; tauto].
      destruct Hpath as [(H80 & ->) | (H80 & H04 & ->)]; tauto.
    - intros g' t (Hpath & Hc & Hi).
      switch_cases; cbn [fst snd]; fields; rewrite ?Est;
        destruct Hpath as [(H80 & Hm) | (H80 & H04 & Hm)];
        try rewrite Est in Hm; try contradiction; try congruence;
        (split;
         [| split; [assumption
                   | first [assumption | intros; discriminate]]]);
        first [ left; split;
                [assumption | first [exact I | reflexivity | assumption]]
              | right; split; [assumption |];
                split;
                [assumption | first [exact I | reflexivity | assumption]] ].
    - rewrite Hst. destruct Hcmd as [H80 | H04].
      + split; [left; auto | auto].
      + destruct (test (command_ s) 128) eqn:E80.
        * split; [left; auto | auto].
        * split; [right; auto | auto]. }
  destruct HP as (Hpath & Hc & Hi). cbn zeta.
  split; [exact Hc |]. split; [exact Hi |].
  intros Hw. unfold beyond_type1, verifying in Hpath. rewrite Hw in Hpath.
  tauto.
Qed.

Lemma high_bits_clear m i :
  0 <= m < 256 -> 8 <= i -> Z.testbit m i = false.
Proof.
  intros Hm Hi. rewrite <- (Z.mod_small m (2 ^ 8)) by lia.
  apply Z.mod_pow2_bits_high. lia.
Qed.

Lemma bits_of_subset st m i :
  Z.land st m = m -> Z.testbit m i = true -> Z.testbit st i = true.
Proof.
  intros H Hm. apply (f_equal (fun z => Z.testbit z i)) in H.
  rewrite Z.land_spec, Hm in H. destruct (Z.testbit st i); [reflexivity |].
  discriminate.
Qed.

Lemma bits_of_disjoint m x i :
  Z.land m x = 0 -> Z.testbit m i = true -> Z.testbit x i = false.
Proof.
  intros H Hm. apply (f_equal (fun z => Z.testbit z i)) in H.
  rewrite Z.land_spec, Hm, Z.bits_0 in H. exact H.
Qed.

Lemma subset_after_byte st m :
  0 <= m < 256 ->
  (forall i, 0 <= i < 8 -> Z.testbit m i = true -> Z.testbit st i = true) ->
  Z.land (uint8_t st) m = m.
Proof.
  intros Hm Hbits. apply Z.bits_inj'. intros i Hi.
  rewrite Z.land_spec. destruct (Z.testbit m i) eqn:Em;
    [| apply Bool.andb_false_r].
  destruct (Z_lt_le_dec i 8) as [Hlt | Hge].
  - unfold uint8_t, uint. rewrite Z.mod_pow2_bits_low by lia.
    rewrite Hbits by (try lia; assumption). reflexivity.
  - rewrite high_bits_clear in Em by assumption. discriminate.
Qed.

Lemma set_keeps_bits st b m :
  0 <= m < 256 -> Z.land st m = m -> Z.land (uint8_t (Z.lor st b)) m = m.
Proof.
  intros Hm H. apply subset_after_byte; [exact Hm |]. intros i Hi Em.
  rewrite Z.lor_spec, (bits_of_subset st m i H Em). reflexivity.
Qed.

Lemma set_sets_bits st m :
  0 <= m < 256 -> Z.land (uint8_t (Z.lor st m)) m = m.
Proof.
  intros Hm. apply subset_after_byte; [exact Hm |]. intros i Hi Em.
  rewrite Z.lor_spec, Em. apply Bool.orb_true_r.
Qed.

Lemma clear_keeps_bits st x m :
  0 <= m < 256 -> Z.land m x = 0 -> Z.land st m = m ->
  Z.land (uint8_t (Z.land st (Z.lnot x))) m = m.
Proof.
  intros Hm Hx H. apply subset_after_byte; [exact Hm |]. intros i Hi Em.
  rewrite Z.land_spec, Z.lnot_spec by lia.
  rewrite (bits_of_subset st m i H Em), (bits_of_disjoint m x i Hx Em).
  reflexivity.
Qed.

(** Property X5. The motor is never switched off. If the motor-on mask fits the
    status byte and shares no bit with a mask the state machine clears,
    then once its bits are set they stay set through every register write
    and tick; and a pass in [WaitForSixIndexPulses] sets them. *)
Theorem motor_stays_on s :
  0 <= MotorOn Flag < 256 ->
  Forall (fun m => Z.land (MotorOn Flag) m = 0) (cleared_masks Flag) ->
  (motor_is_on Flag s ->
   forall ops g, motor_is_on Flag (snd (run_host Flag ops g s))) /\
  (forall g t,
     state_ t = WaitForSixIndexPulses ->
     motor_is_on Flag (snd (fst (dispatch Flag g t)))).
Proof.
  intros Hm Hmasks. unfold cleared_masks in Hmasks.
  inversion Hmasks as [| ? ? H1 Hrest1]; subst.
  inversion Hrest1 as [| ? ? H2 Hrest2]; subst.
  inversion Hrest2 as [| ? ? H3 _]; subst. clear Hmasks Hrest1 Hrest2.
  unfold motor_is_on. split.
  - intros Hon ops g.
    apply (run_host_keeps_it Flag
             (fun t => Z.land (status_ t) (MotorOn Flag) = MotorOn Flag));
      try exact Hon.
    + intros c t H. exact H.
    + intros d t H. exact H.
    + intros t H. unfold process_index_hole. destruct (_ && _); exact H.
    + intros g' t H. switch_cases; try exact H;
        repeat first [ apply clear_keeps_bits; [exact Hm | assumption |]
                     | apply set_keeps_bits; [exact Hm |] ];
        exact H.
    + intros a v t H. unfold set_register.
      destruct (Z.land a 3) as [| [[|[]|]|[|[]|]|] |]; exact H.
  - intros g t Ht. unfold dispatch. rewrite Ht. cbn [fst snd]. fields.
    apply set_sets_bits, Hm.
Qed.

(** Property X6. Busy while a command runs. If the busy mask fits the status byte
    and shares no bit with the masks cleared on entry to a command, then
    through every register write and tick a status read shows [Busy]
    whenever the state machine is past the entry states and not idle. *)
Theorem busy_shown s :
  0 <= Busy Flag < 256 ->
  Forall (fun m => Z.land (Busy Flag) m = 0) (entry_masks Flag) ->
  busy_while_running Flag s ->
  forall ops g, busy_while_running Flag (snd (run_host Flag ops g s)).
Proof.
  intros Hb Hmasks Hs ops g. unfold entry_masks in Hmasks.
  inversion Hmasks as [| ? ? H1 Hrest1]; subst.
  inversion Hrest1 as [| ? ? H2 _]; subst. clear Hmasks Hrest1.
  apply (run_host_keeps_it Flag (busy_while_running Flag));
    try exact Hs; unfold busy_while_running.
  - intros c t H. exact H.
  - intros d t H. exact H.
  - intros t H. unfold process_index_hole. fields.
    destruct (state_ t) eqn:Et; cbn [State_beq andb]; fields;
      try (rewrite Et; exact H).
    destruct (_ =? 6); fields; [| rewrite Et; exact H].
    intros _. apply H. reflexivity.
  - intros g' t H. switch_cases; cbn [fst snd]; fields; rewrite ?Est;
      cbn [running]; try discriminate;
      intros _; try specialize (H eq_refl);
      repeat first [ apply clear_keeps_bits; [exact Hb | assumption |]
                   | apply set_sets_bits; exact Hb
                   | apply set_keeps_bits; [exact Hb |] ];
      try exact H.
  - intros a v t H. unfold set_register.
    destruct (Z.land a 3) as [| [[|[]|]|[|[]|]|] |]; exact H.
Qed.

End Host.

Section Stepping.
Context {D : Type} {drv : Drive D}.
Variable Flag : Flags.
Implicit Types s : WD1770 (D * list DriveCall).

Lemma advance_drive_steps s :
  state_ s <> WaitForSixIndexPulses ->
  exists d c,
    advance_drive Flag s = with_index_hole_count_ c (with_drive d s) /\
    steps_made d = steps_made (drive s).
Proof.
  intros Hst. unfold advance_drive.
  destruct (test (status_ s) (MotorOn Flag)).
  - cbn [drive_run_for_cycles recording].
    destruct (drive_run_for_cycles 1 (fst (drive s))) as [d' events].
    destruct (deliver_elsewhere events
                (with_drive (d', snd (drive s) ++ [CalledRunForCycles 1]) s)
                Hst) as [c Hc].
    eexists. exists c. split; [exact Hc |].
    unfold steps_made. cbn [snd]. rewrite flat_map_app. cbn.
    apply app_nil_r.
  - exists (drive s), (index_hole_count_ s). split; [| reflexivity].
    destruct s; reflexivity.
Qed.

Lemma one_more_step (base : list Z) (n : Z) :
  0 <= n ->
  (base ++ repeat 1 (Z.to_nat n)) ++ [1] = base ++ repeat 1 (Z.to_nat (n + 1)).
Proof.
  intros Hn. rewrite <- app_assoc. f_equal.
  rewrite Z2Nat.inj_add by lia. change (Z.to_nat 1) with 1%nat.
  rewrite Nat.add_comm. cbn [Nat.add repeat]. symmetry. apply repeat_cons.
Qed.

Ltac same_steps Hd Hsteps :=
  rewrite ?Hd; rewrite Hsteps; try reflexivity;
  try (f_equal; f_equal; f_equal; lia).

Lemma restoring_steps_pass r base g s :
  0 <= r <= 3 -> restoring Flag r s ->
  steps_made (drive s) = base ++ repeat 1 (Z.to_nat (restore_steps s)) ->
  exists s',
    quantum Flag g s = (g, s', Continue) /\
    (restoring Flag r s' /\
     steps_made (drive s')
     = base ++ repeat 1 (Z.to_nat (restore_steps s'))) /\
    restore_remaining r s' <= Z.max 0 (restore_remaining r s - 1) /\
    cycles s' = uint32_t (cycles s - 8).
Proof.
  intros Hr [Hcmd Hinv] Hsteps.
  destruct (restore_command_bits r Hr) as (H80 & H08 & H04 & Hs4 & Hs5 & Hl3).
  assert (Hst : state_ (with_cycles (uint32_t (cycles s - 8)) s)
                <> WaitForSixIndexPulses).
  { fields. intros E. rewrite E in Hinv. exact Hinv. }
  destruct (advance_drive_steps (with_cycles (uint32_t (cycles s - 8)) s) Hst)
    as (d' & c' & Hadv & Hd).
  fields. unfold quantum. rewrite Hadv. clear Hadv Hst.
  unfold restoring, restore_remaining, restore_steps, completed in *.
  unfold dispatch. fields.
  destruct (state_ s) eqn:Est; try contradiction.
  - (* Waiting *)
    destruct (has_command_ s) eqn:Ehc.
    + rewrite Hcmd, H80.
      eexists; split; [reflexivity |]. fields.
      split; [split; [finish | same_steps Hd Hsteps] | finish].
    + eexists; split; [reflexivity |]. fields. rewrite Est, Ehc.
      destruct Hinv as [Hinv | Hinv]; [discriminate |].
      split; [split; [finish | same_steps Hd Hsteps] | finish].
  - (* BeginType1 *)
    rewrite Hcmd, H08.
    eexists; split; [reflexivity |]. fields.
    split; [split; [finish | same_steps Hd Hsteps] | finish].
  - (* BeginType1PostSpin *)
    unfold post_spin_setup. fields. rewrite Hcmd, Hs4. fields.
    rewrite Hcmd, Hs5. cbn [Z.eqb].
    eexists; split; [reflexivity |]. fields.
    split; [split; [finish | same_steps Hd Hsteps] | finish].
  - (* TestTrack *)
    destruct Hinv as (Hhc & Hdata & Ht). rewrite Hdata.
    destruct (Z.eqb_spec (track_ s) 0) as [E0 | E0];
      (eexists; split; [reflexivity |]); fields;
      (split; [split; [finish | same_steps Hd Hsteps] | finish]).
  - (* TestDirection *)
    destruct Hinv as (Hhc & Hdata & Ht & Hin). rewrite Hin.
    eexists; split; [reflexivity |]. fields.
    rewrite uint8_small by lia.
    split; [split; [finish | same_steps Hd Hsteps] | finish].
  - (* TestHead *)
    destruct Hinv as (Hhc & Hdata & Ht & Hin). rewrite Hin.
    rewrite Bool.andb_false_r.
    eexists; split; [reflexivity |]. fields.
    split; [split; [finish |] | finish].
    cbn [step recording]. unfold steps_made in *. cbn [snd fst].
    rewrite flat_map_app. cbn [flat_map app]. rewrite Hd, Hsteps.
    rewrite one_more_step by lia. f_equal. f_equal. f_equal. lia.
  - (* StepDelay *)
    destruct Hinv as (Hhc & Hdata & Ht & Hc). rewrite Hcmd, Hl3, Hs5.
    cbn [Z.eqb].
    destruct (Z.eqb_spec (step_delay_count s) r) as [E | E]; fields;
      rewrite int32_small by lia;
      (eexists; split; [reflexivity |]); fields; rewrite ?Est;
      (split; [split; [finish | same_steps Hd Hsteps] | finish]).
  - (* TestVerify *)
    destruct Hinv as (Hhc & Ht). rewrite Hcmd, H04.
    eexists; split; [reflexivity |]. fields. rewrite Hhc.
    split; [split; [| same_steps Hd Hsteps] | finish].
    split; [assumption |]. right. repeat split; try assumption.
    apply flag_cleared.
Qed.

(** Property X7. A restore always makes 255 steps. Whatever track the head is on and
    whatever the drive's track-zero sensor says, a restore ([r] from 0 to
    3) asks the drive for exactly 255 head steps, all in direction 1,
    before it completes: the sensor is consulted only when stepping the
    other way. *)
Theorem restore_makes_255_steps (r : Z) (g : Statics) (ns : list Z) s :
  0 <= r <= 3 -> state_ s = Waiting -> 0 <= cycles s <= 8 ->
  Forall tick_ok ns -> 8 * restore_quanta r + 8 <= total_cycles ns ->
  let result := run_ticks Flag ns g (set_register 0 r s) in
  completed Flag (snd result) /\
  steps_made (drive (snd result)) = steps_made (drive s) ++ repeat 1 255.
Proof.
  intros Hr Hst Hc Hok Htot.
  assert (Hreg : set_register (D := D * list DriveCall) 0 r s
                 = with_has_command_ true (with_command_ r s)).
  { unfold set_register. rewrite uint8_small by lia. reflexivity. }
  destruct (path_run_ticks Flag
              (fun t => restoring Flag r t /\
                        steps_made (drive t)
                        = steps_made (drive s)
                          ++ repeat 1 (Z.to_nat (restore_steps t)))
              (restore_remaining r))
    with (g := g) (ns := ns) (s := set_register 0 r s)
    as (s' & Hrun & [Hon Hsteps] & Hleft); try assumption.
  - intros c t H. exact H.
  - intros c t. reflexivity.
  - intros g' t [Hres Hsteps]. apply restoring_steps_pass; assumption.
  - rewrite Hreg. unfold restoring, restore_steps. fields. rewrite Hst.
    split; [auto |]. cbn. symmetry. apply app_nil_r.
  - rewrite Hreg. unfold restore_remaining. fields. rewrite Hst. lia.
  - cbn zeta. rewrite Hrun. cbn [snd].
    pose proof (restoring_completed Flag r s' Hr Hon Hleft) as Hdone.
    split; [exact Hdone |].
    rewrite Hsteps. unfold restore_steps.
    destruct Hdone as (Hw & Hhc & _). rewrite Hw, Hhc. reflexivity.
Qed.

End Stepping.

Section Host2.
Context {D : Type} {drv : Drive D}.
Variable Flag : Flags.
Implicit Types s : WD1770 D.

Lemma seek_command_bits r :
  0 <= r <= 3 ->
  test (0x10 + r) 0x80 = false /\ test (0x10 + r) 0x08 = false /\
  test (0x10 + r) 0x04 = false /\ Z.shiftr (0x10 + r) 4 = 1 /\
  Z.shiftr (0x10 + r) 5 = 0 /\ Z.land (0x10 + r) 3 = r.
Proof.
  intros Hr.
  assert (Hcases : r = 0 \/ r = 1 \/ r = 2 \/ r = 3) by lia.
  destruct Hcases as [-> | [-> | [-> | ->]]]; repeat split; reflexivity.
Qed.

Ltac done_with := repeat split; try assumption; try reflexivity; try tauto; try lia.

Lemma seeking_pass r g s :
  0 <= r <= 3 -> seeking Flag r s ->
  exists s',
    quantum Flag g s = (g, s', Continue) /\ seeking Flag r s' /\
    seek_remaining r s' <= Z.max 0 (seek_remaining r s - 1) /\
    cycles s' = uint32_t (cycles s - 8).
Proof.
  intros Hr [Hcmd Hinv].
  destruct (seek_command_bits r Hr) as (H80 & H08 & H04 & Hs4 & Hs5 & Hl3).
  assert (Hst : state_ (with_cycles (uint32_t (cycles s - 8)) s)
                <> WaitForSixIndexPulses).
  { fields. intros E. rewrite E in Hinv. exact Hinv. }
  destruct (advance_drive_elsewhere Flag
              (with_cycles (uint32_t (cycles s - 8)) s) Hst)
    as (d' & c' & Hadv).
  unfold quantum. rewrite Hadv. clear Hadv Hst.
  unfold seeking, seek_remaining, finished in *.
  unfold dispatch. fields.
  destruct (state_ s) eqn:Est; try contradiction.
  - (* Waiting *)
    destruct (has_command_ s) eqn:Ehc.
    + rewrite Hcmd, H80.
      eexists; split; [reflexivity |]. fields.
      destruct Hinv as [[_ Ht] | (Hf & _)];
        [| exfalso; destruct Hf as (_ & Hx & _);
          first [discriminate Hx | congruence]].
      done_with.
    + eexists; split; [reflexivity |]. fields. rewrite Est, Ehc.
      destruct Hinv as [[Hinv _] | Hinv]; [discriminate |].
      done_with.
  - (* BeginType1 *)
    rewrite Hcmd, H08.
    eexists; split; [reflexivity |]. fields. done_with.
  - (* BeginType1PostSpin *)
    unfold post_spin_setup. fields. rewrite Hcmd, Hs4. fields.
    rewrite Hcmd, Hs5. cbn [Z.eqb].
    eexists; split; [reflexivity |]. fields. done_with.
  - (* TestTrack *)
    destruct Hinv as (Hhc & Hd & Ht). rewrite Hd.
    destruct (Z.eqb_spec (track_ s) 0) as [E0 | E0].
    + eexists; split; [reflexivity |]. fields. done_with.
    + eexists; split; [reflexivity |]. fields. done_with.
  - (* TestDirection *)
    destruct Hinv as (Hhc & Hd & Ht & Hin). rewrite Hin.
    eexists; split; [reflexivity |]. fields.
    rewrite uint8_small by lia. done_with.
  - (* TestHead *)
    destruct Hinv as (Hhc & Hd & Ht & Hin). rewrite Hin.
    rewrite Bool.andb_false_r.
    eexists; split; [reflexivity |]. fields. done_with.
  - (* StepDelay *)
    destruct Hinv as (Hhc & Hd & Ht & Hc). rewrite Hcmd, Hl3, Hs5.
    cbn [Z.eqb].
    destruct (Z.eqb_spec (step_delay_count s) r) as [E | E]; fields;
      rewrite int32_small by lia;
      (eexists; split; [reflexivity |]); fields; rewrite ?Est; done_with.
  - (* TestVerify *)
    destruct Hinv as (Hhc & Ht & Hd). rewrite Hcmd, H04.
    eexists; split; [reflexivity |]. fields. rewrite Hhc.
    split; [| done_with].
    split; [assumption |]. right. done_with. apply flag_cleared.
Qed.

(** Property X8. Seek goes to track 0. A seek command ([0x10 + r], no spin-up wait,
    no verify) clears the data register, so whatever target the host put
    there, the controller steps the track register down to 0 and then
    goes idle with the interrupt raised and [Busy] clear. The loop passes
    it takes are bounded by the track it starts from. *)
Theorem seek_goes_to_track_0 (r : Z) (g : Statics) (ns : list Z) s :
  0 <= r <= 3 -> state_ s = Waiting -> 0 <= track_ s <= 255 ->
  0 <= cycles s <= 8 -> Forall tick_ok ns ->
  8 * (track_ s * (r + 4) + 5) + 8 <= total_cycles ns ->
  let result := run_ticks Flag ns g (set_register 0 (0x10 + r) s) in
  fst result = g /\ finished Flag (snd result) /\
  track_ (snd result) = 0 /\ data_ (snd result) = 0.
Proof.
  intros Hr Hst Ht Hc Hok Htot.
  assert (Hreg : set_register (D := D) 0 (0x10 + r) s
                 = with_has_command_ true (with_command_ (0x10 + r) s)).
  { unfold set_register. rewrite uint8_small by lia. reflexivity. }
  destruct (path_run_ticks Flag (seeking Flag r) (seek_remaining r))
    with (g := g) (ns := ns) (s := set_register 0 (0x10 + r) s)
    as (s' & Hrun & Hon & Hleft); try assumption.
  - intros c t H. exact H.
  - intros c t. reflexivity.
  - intros g' t Ht'. apply seeking_pass; assumption.
  - rewrite Hreg. unfold seeking. fields. rewrite Hst. auto.
  - rewrite Hreg. unfold seek_remaining. fields. rewrite Hst. lia.
  - cbn zeta. rewrite Hrun. cbn [fst snd]. split; [reflexivity |].
    destruct Hon as [Hcmd Hinv]. unfold seek_remaining in Hleft.
    destruct (state_ s') eqn:Est; try contradiction;
      try (exfalso; destruct Hinv as (? & ?); nia);
      try (exfalso; nia).
    destruct (has_command_ s') eqn:Ehc.
    + exfalso. destruct Hinv as [[_ Hb] | (Hf & _)];
        [nia | destruct Hf as (_ & Hx & _);
          first [discriminate Hx | congruence]].
    + destruct Hinv as [[Hinv _] | Hinv]; [discriminate | tauto].
Qed.

Lemma step_command_bits k u r :
  1 <= k <= 3 -> 0 <= r <= 3 ->
  let c := step_command k u r in
  0 <= c <= 255 /\
  test c 0x80 = false /\ test c 0x08 = false /\ test c 0x04 = false /\
  test c 0x10 = u /\ (Z.shiftr c 5 =? 0) = false /\ Z.land c 3 = r /\
  Z.shiftr c 4 = 2 * k + (if u then 1 else 0).
Proof.
  intros Hk Hr.
  assert (Hkc : k = 1 \/ k = 2 \/ k = 3) by lia.
  assert (Hrc : r = 0 \/ r = 1 \/ r = 2 \/ r = 3) by lia.
  destruct Hkc as [-> | [-> | ->]];
    destruct Hrc as [-> | [-> | [-> | ->]]]; destruct u;
    cbn zeta; repeat split; try reflexivity; cbn; lia.
Qed.

Lemma stepping_pass k u r track0 dir0 g s :
  1 <= k <= 3 -> 0 <= r <= 3 -> stepping Flag k u r track0 dir0 s ->
  exists s',
    quantum Flag g s = (g, s', Continue) /\
    stepping Flag k u r track0 dir0 s' /\
    step_remaining u r s' <= Z.max 0 (step_remaining u r s - 1) /\
    cycles s' = uint32_t (cycles s - 8).
Proof.
  intros Hk Hr [Hcmd Hinv].
  destruct (step_command_bits k u r Hk Hr)
    as (_ & H80 & H08 & H04 & H10 & Hs5 & Hl3 & Hs4).
  assert (Hst : state_ (with_cycles (uint32_t (cycles s - 8)) s)
                <> WaitForSixIndexPulses).
  { fields. intros E. rewrite E in Hinv. exact Hinv. }
  destruct (advance_drive_elsewhere Flag
              (with_cycles (uint32_t (cycles s - 8)) s) Hst)
    as (d' & c' & Hadv).
  unfold quantum. rewrite Hadv. clear Hadv Hst.
  unfold stepping, step_remaining, finished, step_outcome in *.
  unfold dispatch. fields.
  destruct (state_ s) eqn:Est; try contradiction.
  - (* Waiting *)
    destruct (has_command_ s) eqn:Ehc.
    + rewrite Hcmd, H80.
      eexists; split; [reflexivity |]. fields.
      destruct Hinv as [(_ & Ht & Hd) | (Hf & _)];
        [| exfalso; destruct Hf as (_ & Hx & _);
          first [discriminate Hx | congruence]].
      destruct u; done_with.
    + eexists; split; [reflexivity |]. fields. rewrite Est, Ehc.
      destruct Hinv as [(Hinv & _) | Hinv]; [discriminate |].
      done_with.
  - (* BeginType1 *)
    rewrite Hcmd, H08.
    eexists; split; [reflexivity |]. fields. destruct u; done_with.
  - (* BeginType1PostSpin *)
    destruct Hinv as (Hhc & Ht & Hd).
    unfold post_spin_setup. fields. rewrite Hcmd, Hs4.
    assert (Hkc : k = 1 \/ k = 2 \/ k = 3) by lia.
    unfold stepped_track, step_direction.
    destruct Hkc as [-> | [-> | ->]]; destruct u; cbn [Z.mul Z.add Pos.mul Pos.add Z.eqb Pos.eqb];
      fields; rewrite Hcmd, Hs5, H10;
      (eexists; split; [reflexivity |]); fields; done_with.
  - (* TestDirection *)
    destruct Hinv as (Hu & Hhc & Ht & Hd). subst u.
    eexists; split; [reflexivity |]. fields. rewrite Hd, Ht.
    unfold stepped_track. done_with.
  - (* TestHead *)
    destruct Hinv as (Hhc & Ht & Hd).
    destruct (get_is_track_zero d' && negb (is_step_in_ s)) eqn:Ez.
    + eexists; split; [reflexivity |]. fields.
      apply andb_prop in Ez. destruct Ez as [_ Ez].
      rewrite Hd in Ez. destruct (step_direction k dir0); [discriminate |].
      done_with.
    + eexists; split; [reflexivity |]. fields. done_with.
  - (* StepDelay *)
    destruct Hinv as (Hhc & Ht & Hc). rewrite Hcmd, Hl3, Hs5.
    destruct (Z.eqb_spec (step_delay_count s) r) as [E | E]; fields;
      rewrite int32_small by lia;
      (eexists; split; [reflexivity |]); fields; rewrite ?Est; done_with.
  - (* TestVerify *)
    destruct Hinv as (Hhc & Ht). rewrite Hcmd, H04.
    eexists; split; [reflexivity |]. fields. rewrite Hhc.
    split; [| done_with].
    split; [assumption |]. right. done_with. apply flag_cleared.
Qed.

(** Property X9. A single step. Step, step-in and step-out ([step_command k u r], no
    spin-up wait, no verify) complete within [r + 7] loop passes and leave
    the controller idle with the interrupt raised and [Busy] clear. The
    track register is left alone without the update flag and moved by
    one, modulo 256, with it: down when stepping in, up when stepping
    out; step itself goes the way the controller last went. Only on the
    way out, when the drive reports track zero, is the register set to 0
    instead. *)
Theorem single_step (k : Z) (u : bool) (r : Z) (g : Statics) (ns : list Z) s :
  1 <= k <= 3 -> 0 <= r <= 3 -> state_ s = Waiting ->
  0 <= cycles s <= 8 -> Forall tick_ok ns ->
  8 * (r + 7) + 8 <= total_cycles ns ->
  let result := run_ticks Flag ns g (set_register 0 (step_command k u r) s) in
  let inward := step_direction k (is_step_in_ s) in
  fst result = g /\ finished Flag (snd result) /\
  step_outcome u inward (track_ s) (track_ (snd result)).
Proof.
  intros Hk Hr Hst Hc Hok Htot.
  destruct (step_command_bits k u r Hk Hr) as (Hbyte & _).
  assert (Hreg : set_register (D := D) 0 (step_command k u r) s
                 = with_has_command_ true
                     (with_command_ (step_command k u r) s)).
  { unfold set_register. rewrite uint8_small by lia. reflexivity. }
  destruct (path_run_ticks Flag
              (stepping Flag k u r (track_ s) (is_step_in_ s))
              (step_remaining u r))
    with (g := g) (ns := ns) (s := set_register 0 (step_command k u r) s)
    as (s' & Hrun & Hon & Hleft); try assumption.
  - intros c t H. exact H.
  - intros c t. reflexivity.
  - intros g' t Ht'. apply stepping_pass; assumption.
  - rewrite Hreg. unfold stepping. fields. rewrite Hst. auto.
  - rewrite Hreg. unfold step_remaining. fields. rewrite Hst.
    destruct u; lia.
  - cbn zeta. rewrite Hrun. cbn [fst snd]. split; [reflexivity |].
    destruct Hon as [Hcmd Hinv]. unfold step_remaining in Hleft.
    destruct (state_ s') eqn:Est; try contradiction;
      try (exfalso; destruct u; lia);
      try (exfalso; destruct Hinv as (? & ? & ?); lia).
    destruct (has_command_ s') eqn:Ehc.
    + exfalso. destruct u; lia.
    + destruct Hinv as [(Hinv & _) | Hinv]; [discriminate | exact Hinv].
Qed.

End Host2.

(** *** Instances *)

Lemma idle_is_stable_witness :
  registers (snd (run_ticks datasheet_flags [100; 7; 1000] no_diagnostic
                    fresh_controller))
  = registers fresh_controller.
Proof.
  exact (idle_is_stable datasheet_flags [100; 7; 1000] no_diagnostic
           fresh_controller eq_refl eq_refl).
Defined.

Lemma unhandled_state_is_final_witness :
  state_ (snd (run_host datasheet_flags
                 [Tick 100; Write 0 0x00; Write 1 7; Tick 5000] no_diagnostic
                 (with_state_ TestWrite fresh_controller)))
  = TestWrite.
Proof.
  destruct (unhandled_state_is_final datasheet_flags
              (with_state_ TestWrite fresh_controller) eq_refl) as [_ H].
  exact (proj1 (H [Tick 100; Write 0 0x00; Write 1 7; Tick 5000]
                  no_diagnostic)).
Defined.

Lemma unfinished_commands_witness :
  let s' :=
    snd (run_ticks datasheet_flags [20000; 20000] no_diagnostic
           (set_register 0 0x84 fresh_controller)) in
  command_ s' = 0x84 /\
  (state_ s' = Waiting -> has_command_ s' = true).
Proof.
  destruct (unfinished_commands datasheet_flags [20000; 20000] no_diagnostic
              (set_register 0 0x84 fresh_controller) eq_refl eq_refl
              (or_introl eq_refl)) as (Hc & _ & Hw).
  split; [exact Hc | exact Hw].
Defined.

Lemma motor_stays_on_witness :
  motor_is_on datasheet_flags
    (snd (run_host datasheet_flags [Write 0 0x00; Tick 20000] no_diagnostic
            (with_status_ 0x80 fresh_controller))).
Proof.
  assert (Hmasks : Forall (fun m => Z.land (MotorOn datasheet_flags) m = 0)
                     (cleared_masks datasheet_flags)).
  { repeat constructor. }
  destruct (motor_stays_on datasheet_flags (with_status_ 0x80 fresh_controller)
              ltac:(cbn; lia) Hmasks) as [H _].
  exact (H eq_refl [Write 0 0x00; Tick 20000] no_diagnostic).
Defined.

Lemma busy_shown_witness :
  let s' :=
    snd (run_host datasheet_flags [Write 0 0x00; Tick 100] no_diagnostic
           fresh_controller) in
  state_ s' = TestDirection /\ Z.land (status_ s') 0x01 = 0x01.
Proof.
  assert (Hmasks : Forall (fun m => Z.land (Busy datasheet_flags) m = 0)
                     (entry_masks datasheet_flags)).
  { repeat constructor. }
  pose proof (busy_shown datasheet_flags fresh_controller ltac:(cbn; lia)
                Hmasks ltac:(intros H; discriminate H)
                [Write 0 0x00; Tick 100] no_diagnostic) as H.
  split; [vm_compute; reflexivity |].
  apply H. vm_compute. reflexivity.
Defined.

Lemma restore_makes_255_steps_witness :
  steps_made
    (drive (snd (run_ticks datasheet_flags (repeat 8 1026) no_diagnostic
                   (set_register 0 0x00 recorded_controller))))
  = repeat 1 255.
Proof.
  assert (Hok : Forall tick_ok (repeat 8 1026))
    by apply tick_ok_repeat, tick_ok_8.
  assert (Htot : 8 * restore_quanta 0 + 8 <= total_cycles (repeat 8 1026)).
  { rewrite total_cycles_repeat. unfold restore_quanta. lia. }
  exact (proj2 (restore_makes_255_steps datasheet_flags 0 no_diagnostic
                  (repeat 8 1026) recorded_controller
                  ltac:(lia) eq_refl ltac:(cbn; lia) Hok Htot)).
Defined.

Lemma seek_goes_to_track_0_witness :
  let result :=
    run_ticks datasheet_flags (repeat 8 21) no_diagnostic
      (set_register 0 0x11
         (with_data_ 9 (with_track_ 3 fresh_controller))) in
  track_ (snd result) = 0 /\ data_ (snd result) = 0.
Proof.
  assert (Hok : Forall tick_ok (repeat 8 21))
    by apply tick_ok_repeat, tick_ok_8.
  assert (Htot : 8 * (3 * (1 + 4) + 5) + 8 <= total_cycles (repeat 8 21)).
  { rewrite total_cycles_repeat. lia. }
  destruct (seek_goes_to_track_0 datasheet_flags 1 no_diagnostic (repeat 8 21)
              (with_data_ 9 (with_track_ 3 fresh_controller))
              ltac:(lia) eq_refl ltac:(cbn; lia) ltac:(cbn; lia) Hok Htot)
    as (_ & _ & Ht & Hd).
  split; assumption.
Defined.

Lemma single_step_witness :
  let result :=
    run_ticks datasheet_flags (repeat 8 10) no_diagnostic
      (set_register 0 0x52 (with_track_ 5 fresh_controller)) in
  step_outcome true true 5 (track_ (snd result)).
Proof.
  assert (Hok : Forall tick_ok (repeat 8 10))
    by apply tick_ok_repeat, tick_ok_8.
  assert (Htot : 8 * (2 + 7) + 8 <= total_cycles (repeat 8 10)).
  { rewrite total_cycles_repeat. lia. }
  destruct (single_step datasheet_flags 2 true 2 no_diagnostic (repeat 8 10)
              (with_track_ 5 fresh_controller)
              ltac:(lia) ltac:(lia) eq_refl ltac:(cbn; lia) Hok Htot)
    as (_ & _ & H).
  exact H.
Defined.

End WDMore.

(** ** More on the instruction fields *)

Module PowerPCMore.
Import Fixed PowerPC PowerPCFacts.

Lemma land_ones_range x k : 0 <= k -> 0 <= Z.land x (Z.ones k) < 2 ^ k.
Proof.
  intros Hk. rewrite Z.land_ones by exact Hk. apply Z.mod_pos_bound.
  apply Z.pow_pos_nonneg; lia.
Qed.

Lemma land_pow2 x n :
  0 <= n ->
  Z.land x (2 ^ n) = Z.shiftl (Z.land (Z.shiftr x n) (Z.ones 1)) n.
Proof.
  intros Hn. rewrite <- (Z.shiftl_1_l n). change 1 with (Z.ones 1) at 1.
  Z.bitblast.
Qed.

Lemma field_range s k i : 0 <= k -> 0 <= field s (Z.ones k) i < 2 ^ k.
Proof. intros Hk. unfold field. apply land_ones_range, Hk. Qed.

Lemma int32_of_small x : 0 <= x < 2 ^ 31 -> int32_t x = x.
Proof.
  intros H. unfold int32_t, sint, uint. rewrite Z.mod_small by lia.
  destruct (Z.ltb_spec x (2 ^ (32 - 1))); lia.
Qed.

(** Property X10. Field bounds. Whatever the word is, every register, bit and shift
    field is an index below 32, a condition-register field is below 8, a
    field mask below 256, a segment register or FPSCR immediate below
    16, [uimm] is an unsigned and [simm] a signed 16-bit value, and each
    flag accessor returns either 0 or its own mask. *)
Theorem field_bounds (i : Instruction) :
  Forall (fun f => 0 <= f i <= 31) five_bit_fields /\
  0 <= crfD i <= 7 /\ 0 <= crfS i <= 7 /\
  0 <= crm i <= 255 /\ 0 <= fm i <= 255 /\
  0 <= sr i <= 15 /\ 0 <= imm i <= 15 /\ 0 <= branch_options i <= 15 /\
  0 <= uimm i <= 65535 /\ - 32768 <= simm i <= 32767 /\
  (aa i = 0 \/ aa i = 0x02) /\ (lk i = 0 \/ lk i = 0x01) /\
  (rc i = 0 \/ rc i = 0x01) /\ (oe i = 0 \/ oe i = 0x400) /\
  (l i = 0 \/ l i = 0x200000) /\
  (branch_prediction_hint i = 0 \/ branch_prediction_hint i = 0x200000).
Proof.
  pose proof (fun s => field_range s 5 i ltac:(lia)) as H5.
  pose proof (fun s => field_range s 3 i ltac:(lia)) as H3.
  pose proof (fun s => field_range s 8 i ltac:(lia)) as H8.
  pose proof (fun s => field_range s 4 i ltac:(lia)) as H4.
  change (Z.ones 5) with 0x1f in H5. change (Z.ones 3) with 0x07 in H3.
  change (Z.ones 8) with 0xff in H8. change (Z.ones 4) with 0xf in H4.
  assert (Hbit : forall n, 0 <= n ->
            Z.land (opcode i) (2 ^ n) = 0 \/ Z.land (opcode i) (2 ^ n) = 2 ^ n).
  { intros n Hn. rewrite (land_pow2 (opcode i) n Hn).
    pose proof (land_ones_range (Z.shiftr (opcode i) n) 1 ltac:(lia)) as Hr.
    assert (Hc : Z.land (Z.shiftr (opcode i) n) (Z.ones 1) = 0 \/
                 Z.land (Z.shiftr (opcode i) n) (Z.ones 1) = 1) by lia.
    destruct Hc as [-> | ->]; [left | right].
    - apply Z.shiftl_0_l.
    - apply Z.shiftl_1_l. }
  split.
  { unfold five_bit_fields.
    repeat constructor;
      cbv [to rA rB rD rS frA frB frC frS frD bo bi mb me crbA crbB crbD
           nb sh];
      try (rewrite int32_of_small by (specialize (H5 21); lia));
      match goal with
      | |- context [field ?s 31 i] => specialize (H5 s); lia
      end. }
  repeat split;
    try (unfold crfD; specialize (H3 23); lia);
    try (unfold crfS; specialize (H3 18); lia);
    try (unfold crm; specialize (H8 12); lia);
    try (unfold fm; specialize (H8 17); lia);
    try (unfold sr; specialize (H4 16); lia);
    try (unfold branch_options; specialize (H4 22); lia);
    try (unfold imm; rewrite int32_of_small;
         [ specialize (H4 12); lia | specialize (H4 12); lia ]);
    try (unfold uimm, uint16_t;
         pose proof (uint_range 16 (Z.land (opcode i) 65535) ltac:(lia));
         lia);
    try (unfold simm, int16_t;
         pose proof (sint_range 16 (Z.land (opcode i) 65535) ltac:(lia));
         lia).
  - exact (Hbit 1 ltac:(lia)).
  - exact (Hbit 0 ltac:(lia)).
  - exact (Hbit 0 ltac:(lia)).
  - exact (Hbit 10 ltac:(lia)).
  - exact (Hbit 21 ltac:(lia)).
  - exact (Hbit 21 ltac:(lia)).
Qed.

Lemma li_low_bits op sup w :
  li (Instruction_of op w sup) mod 2 ^ 26 = Z.land (uint32_t w) 0x03fffffc.
Proof.
  rewrite li_value, sint_24, li_mask.
  pose proof (li_bits_range w) as Hq.
  destruct (Z.ltb_spec (li_bits w) (2 ^ 23)).
  - apply Z.mod_small. lia.
  - replace (4 * (li_bits w - 2 ^ 24)) with (4 * li_bits w + (-1) * 2 ^ 26)
      by lia.
    rewrite Z.mod_add by lia. apply Z.mod_small. lia.
Qed.

Lemma bd_low_bits op sup w :
  bd (Instruction_of op w sup) mod 2 ^ 16 = Z.land (uint32_t w) 0xfffc.
Proof.
  rewrite bd_value, sint_14, bd_mask.
  pose proof (bd_bits_range w) as Hq.
  destruct (Z.ltb_spec (bd_bits w) (2 ^ 13)).
  - apply Z.mod_small. lia.
  - replace (4 * (bd_bits w - 2 ^ 14)) with (4 * bd_bits w + (-1) * 2 ^ 16)
      by lia.
    rewrite Z.mod_add by lia. apply Z.mod_small. lia.
Qed.

(** Property X11. Reassembly. The fields of each instruction form, put back at their
    places, give the stored word: primary opcode, [rD], [rA] and [uimm]
    for the D form; primary opcode, [rS], [rA], [sh], [mb], [me] and [rc]
    for the M form; primary opcode, the low 26 bits of [li], [aa] and
    [lk] for the I form; primary opcode, [bo], [bi], the low 16 bits of
    [bd], [aa] and [lk] for the B form. No bit of the word is read twice
    or dropped. *)
Theorem fields_reassemble (op : Operation) (sup : bool) (w : Z) :
  let i := Instruction_of op w sup in
  let top := Z.shiftl (primary_opcode i) 26 in
  opcode i
  = Z.lor top (Z.lor (Z.shiftl (rD i) 21) (Z.lor (Z.shiftl (rA i) 16) (uimm i)))
  /\
  opcode i
  = Z.lor top
      (Z.lor (Z.shiftl (rS i) 21)
         (Z.lor (Z.shiftl (rA i) 16)
            (Z.lor (Z.shiftl (sh i) 11)
               (Z.lor (Z.shiftl (mb i) 6)
                  (Z.lor (Z.shiftl (me i) 1) (rc i))))))
  /\
  opcode i = Z.lor top (Z.lor (li i mod 2 ^ 26) (Z.lor (aa i) (lk i)))
  /\
  opcode i
  = Z.lor top
      (Z.lor (Z.shiftl (bo i) 21)
         (Z.lor (Z.shiftl (bi i) 16)
            (Z.lor (bd i mod 2 ^ 16) (Z.lor (aa i) (lk i))))).
Proof.
  cbn zeta. rewrite li_low_bits, bd_low_bits.
  assert (Haa : forall x, Z.land x 0x02
                          = Z.shiftl (Z.land (Z.shiftr x 1) (Z.ones 1)) 1).
  { intros x. apply (land_pow2 x 1). lia. }
  unfold aa, lk, rc. cbn [opcode Instruction_of]. rewrite !Haa.
  change (Z.land (uint32_t w) 1) with (Z.land (uint32_t w) (Z.ones 1)).
  cbv [primary_opcode rD rS rA bo bi sh mb me uimm field uint16_t
       Instruction_of opcode].
  generalize (uint32_t w). intros x.
  unfold uint. rewrite <- ?Z.land_ones by lia.
  change 0xffff with (Z.ones 16). change 0x1f with (Z.ones 5).
  change 0x03fffffc with (Z.shiftl (Z.ones 24) 2).
  change 0xfffc with (Z.shiftl (Z.ones 14) 2).
  repeat split; Z.bitblast.
Qed.

Lemma div_of_mod y a b :
  0 < a -> 0 < b -> (y mod (a * b)) / a = (y / a) mod b.
Proof.
  intros Ha Hb. rewrite Z.rem_mul_r by lia.
  rewrite (Z.mul_comm a), Z.div_add by lia.
  rewrite Z.div_small by (apply Z.mod_pos_bound; lia). reflexivity.
Qed.

(** Property X12. Overlapping fields agree. [bo] is [branch_options] with the
    prediction hint as its low bit; a condition-register field is the
    bit index over 4 ([crfD] from [crbD], [crfS] from [crbA]); the
    segment register is [rA] modulo 16; and [uimm] is [simm] modulo
    [2^16]. *)
Theorem overlapping_fields (i : Instruction) :
  bo i = 2 * branch_options i
         + (if branch_prediction_hint i =? 0 then 0 else 1) /\
  crfD i = crbD i / 4 /\
  crfS i = crbA i / 4 /\
  sr i = rA i mod 16 /\
  uimm i = simm i mod 2 ^ 16.
Proof.
  set (x := opcode i).
  split; [| split; [| split; [| split]]].
  - unfold bo, branch_options, branch_prediction_hint, field. fold x.
    change 0x200000 with (2 ^ 21). rewrite (land_pow2 x 21) by lia.
    change 0x1f with (Z.ones 5). change 0xf with (Z.ones 4).
    rewrite !Z.land_ones, !Z.shiftr_div_pow2, Z.shiftl_mul_pow2 by lia.
    change (2 ^ 22) with (2 ^ 21 * 2). rewrite <- Z.div_div by lia.
    set (y := x / 2 ^ 21).
    change (2 ^ 5) with (2 * 2 ^ 4). rewrite Z.rem_mul_r by lia.
    pose proof (Z.mod_pos_bound y (2 ^ 1) ltac:(lia)) as Hy.
    change (2 ^ 1) with 2 in *.
    destruct (Z.eqb_spec (y mod 2 * 2 ^ 21) 0); lia.
  - unfold crfD, crbD, field. fold x.
    change 0x1f with (Z.ones 5). change 0x07 with (Z.ones 3).
    rewrite !Z.land_ones, !Z.shiftr_div_pow2 by lia.
    change (2 ^ 23) with (2 ^ 21 * 4). rewrite <- Z.div_div by lia.
    change (2 ^ 5) with (4 * 2 ^ 3). symmetry. apply div_of_mod; lia.
  - unfold crfS, crbA, field. fold x.
    change 0x1f with (Z.ones 5). change 0x07 with (Z.ones 3).
    rewrite !Z.land_ones, !Z.shiftr_div_pow2 by lia.
    change (2 ^ 18) with (2 ^ 16 * 4). rewrite <- Z.div_div by lia.
    change (2 ^ 5) with (4 * 2 ^ 3). symmetry. apply div_of_mod; lia.
  - unfold sr, rA, field. fold x.
    change 0x1f with (Z.ones 5). change 0xf with (Z.ones 4).
    rewrite !Z.land_ones by lia.
    generalize (Z.shiftr x 16). intros y.
    change (2 ^ 4) with 16. change (2 ^ 5) with 32.
    Z.div_mod_to_equations. lia.
  - unfold uimm, simm, int16_t, uint16_t, sint.
    set (u := uint 16 (Z.land (opcode i) 65535)).
    pose proof (uint_range 16 (Z.land (opcode i) 65535) ltac:(lia)) as Hu.
    fold u in Hu.
    destruct (Z.ltb_spec u (2 ^ (16 - 1))).
    + symmetry. apply Z.mod_small. lia.
    + replace (u - 2 ^ 16) with (u + (-1) * 2 ^ 16) by lia.
      rewrite Z.mod_add by lia. symmetry. apply Z.mod_small. lia.
Qed.

(** Property X13. Branch options without a name. [branch_options] casts a four-bit
    field to [BranchOption]; the value is an enumerator's for nine of the
    sixteen encodings and no enumerator's for 3, 7 and 11 to 15. Every
    enumerator is read back from its own value, and some word has it. *)
Theorem branch_option_names (i : Instruction) :
  let v := branch_options i in
  (BranchOption_of_value v = None <->
   v = 3 \/ v = 7 \/ 11 <= v <= 15) /\
  (forall b, BranchOption_of_value v = Some b -> BranchOption_value b = v) /\
  (forall b,
     BranchOption_of_value (BranchOption_value b) = Some b /\
     branch_options
       (Instruction_of_opcode (Z.shiftl (BranchOption_value b) 22))
     = BranchOption_value b).
Proof.
  cbn zeta.
  pose proof (field_range 22 4 i ltac:(lia)) as Hv.
  change (Z.ones 4) with 0xf in Hv. fold branch_options in Hv.
  set (v := branch_options i) in *.
  assert (Hc : v = 0 \/ v = 1 \/ v = 2 \/ v = 3 \/ v = 4 \/ v = 5 \/ v = 6 \/
               v = 7 \/ v = 8 \/ v = 9 \/ v = 10 \/ v = 11 \/ v = 12 \/
               v = 13 \/ v = 14 \/ v = 15) by lia.
  split; [| split].
  - repeat (destruct Hc as [-> | Hc]); try rewrite Hc;
      cbn [BranchOption_of_value];
      (split; [intros H; try discriminate H; lia
              | intros H; try reflexivity; exfalso; lia]).
  - intros b.
    repeat (destruct Hc as [-> | Hc]); try rewrite Hc;
      cbn [BranchOption_of_value]; intros H;
      try discriminate H; injection H as <-; reflexivity.
  - intros b. destruct b; split; reflexivity.
Qed.

End PowerPCMore.

(** ** More on the Amiga bus *)

Module AmigaMore.
Import Fixed Amiga AmigaFacts.

Lemma land_shifted a m k :
  0 <= k -> Z.land a (Z.shiftl m k) = Z.shiftl (Z.land (Z.shiftr a k) m) k.
Proof.
  intros Hk. apply Z.bits_inj'. intros i Hi.
  rewrite Z.land_spec, !Z.shiftl_spec by lia. rewrite Z.land_spec.
  destruct (Z_lt_le_dec i k) as [Hlt | Hge].
  - rewrite (Z.testbit_neg_r m) by lia.
    rewrite !Bool.andb_false_r. reflexivity.
  - rewrite Z.shiftr_spec by lia.
    replace (i - k + k) with i by lia. reflexivity.
Qed.

Lemma cia_page a page :
  Z.shiftr a 12 = page ->
  Z.land a 0xe00000 = Z.shiftl (Z.land page 0xe00) 12 /\
  Z.land a 0x1000 = Z.shiftl (Z.land page 1) 12 /\
  Z.land a 0x2000 = Z.shiftl (Z.land page 2) 12.
Proof.
  intros <-.
  change 0xe00000 with (Z.shiftl 0xe00 12).
  change 0x1000 with (Z.shiftl 1 12). change 0x2000 with (Z.shiftl 2 12).
  rewrite !land_shifted by lia. auto.
Qed.

Lemma low_byte_kept r :
  0 <= r <= 255 ->
  uint16_t (Z.land 0xffff (Z.lor 0xff00 (Z.shiftl r 0))) = 0xff00 + r.
Proof.
  intros Hr. rewrite Z.shiftl_0_r.
  assert (Hd : Z.land 0xff00 r = 0).
  { rewrite <- (Z.mod_small r (2 ^ 8)) by lia.
    rewrite <- Z.land_ones by lia.
    change 0xff00 with (Z.shiftl (Z.ones 8) 8). Z.bitblast. }
  rewrite <- Z.lxor_lor, <- Z.add_nocarry_lxor by exact Hd.
  change 0xffff with (Z.ones 16). rewrite Z.land_comm, Z.land_ones by lia.
  unfold uint16_t, uint. rewrite Z.mod_mod by lia. apply Z.mod_small. lia.
Qed.

Lemma high_byte_kept r :
  0 <= r <= 255 ->
  uint16_t (Z.land 0xffff (Z.lor 0x00ff (Z.shiftl r 8))) = 0x00ff + 256 * r.
Proof.
  intros Hr.
  assert (Hd : Z.land 0x00ff (Z.shiftl r 8) = 0).
  { change 0x00ff with (Z.ones 8). apply Z.bits_inj'. intros i Hi.
    rewrite Z.land_spec, Z.shiftl_spec, Z.bits_0 by lia.
    rewrite Z.testbit_ones_nonneg by lia.
    destruct (Z.ltb_spec i 8); [| reflexivity].
    rewrite Z.testbit_neg_r by lia. reflexivity. }
  rewrite <- Z.lxor_lor, <- Z.add_nocarry_lxor by exact Hd.
  rewrite Z.shiftl_mul_pow2 by lia.
  replace (r * 2 ^ 8) with (256 * r) by lia.
  change 0xffff with (Z.ones 16). rewrite Z.land_comm, Z.land_ones by lia.
  unfold uint16_t, uint. rewrite Z.mod_mod by lia. apply Z.mod_small. lia.
Qed.

Section Bus.
Context {Cpu MemoryMap Chipset Disks Name Request Map : Type}.
Context {hw : Hardware Cpu MemoryMap Chipset Disks Name Request Map}.
Implicit Types m : ConcreteMachine Cpu MemoryMap Chipset.

(** Property X14. Only chip-RAM accesses wait. On every path [perform_bus_operation]
    returns the delay its head computed: zero unless the cycle is a
    [NewAddress] one below 0x200000, and then the time the chipset took to
    reach the next CPU slot. *)
Theorem access_delay cycle m :
  snd (perform_bus_operation cycle m) = snd (advance cycle m) /\
  (NewAddress (operation cycle) && (address cycle <? 0x200000) = false ->
   snd (perform_bus_operation cycle m) = 0) /\
  (NewAddress (operation cycle) && (address cycle <? 0x200000) = true ->
   snd (perform_bus_operation cycle m)
   = snd (run_until_cpu_slot (chipset_ m, memory_ m))).
Proof.
  assert (Hsame : snd (perform_bus_operation cycle m) = snd (advance cycle m)).
  { unfold perform_bus_operation.
    destruct (advance cycle m) as [m1 delay].
    destruct (InterruptAcknowledge (operation cycle)); [reflexivity |].
    destruct (negb _); [reflexivity |].
    destruct (decode cycle m1). reflexivity. }
  split; [exact Hsame |].
  rewrite Hsame. unfold advance.
  split; intros ->.
  - destruct (run_for _ _). reflexivity.
  - destruct (run_until_cpu_slot (chipset_ m, memory_ m)) as [[c0 m0] d0].
    destruct (run_for _ _). reflexivity.
Qed.

Lemma decode_cia cycle m :
  SelectByte (operation cycle) || SelectWord (operation cycle) = true ->
  read_write_mask (memory_ m)
    (Z.shiftr (host_endian_byte_address cycle) 18) = 0 ->
  Z.land (host_endian_byte_address cycle) 0xe00000 = 0xa00000 ->
  decode cycle m
  = (mkConcreteMachine (set_is_peripheral_address true (mc68000_ m))
       (memory_ m)
       (fst (cia_access cycle (host_endian_byte_address cycle) (chipset_ m)))
       (clock_rate m),
     snd (cia_access cycle (host_endian_byte_address cycle) (chipset_ m))).
Proof.
  intros Hsel Hmask Hcia. unfold decode. cbn [memory_ chipset_ mc68000_ clock_rate].
  rewrite Hmask, Hsel, Hcia. cbn [Z.eqb Pos.eqb].
  destruct (cia_access _ _ _). reflexivity.
Qed.


End Bus.


End AmigaMore.
